(** * Presence monitoring loops of BlueLock

    Shallow embedding of the three monitoring loops of the repository:
    - [Perfect]: [PerfectBlueLock.monitor_device] (src/main/bluelock_perfect.py),
      with its [enhanced_scan] and [execute_action];
    - [WebApp]: [monitor_loop], [api_start] and [api_stop] (src/app.py);
    - [Sod]: the loop of [main] in src/main/sleep_on_disconnect.py;
    - [PerfectDevices]: the device catalogue, priorities and selection
      prompt of bluelock_perfect.py;
    - [WebAppDevices]: [get_all_bluetooth_devices] of app.py;
    - [SodConfig]: the config file, device listing, [pick_device] and the
      flags of [main] in sleep_on_disconnect.py.

    One loop iteration is one tick.  The outcome of the probe of a tick is a
    [ProbeResult]; each loop maps it to the value its code works with
    ([Optional[float]] for [enhanced_scan], [bool] for [is_device_connected]). *)

From Stdlib Require Import ZArith List Bool String Lia Permutation Sorted.
Import ListNotations.
Open Scope nat_scope.

(** What the probe of one tick observes: the device was found (with the
    RSSI of the scan, or [None] when only the extended scan found it), the
    device was not found, or the probe mechanism failed (exception of the
    scanner, PowerShell failure or non-zero exit code). *)
Inductive ProbeResult : Type :=
| Present (signal : option Z)
| Absent
| ProbeError.

(** Exceptions the loops can raise.  [KeyboardInterrupt] is not a subclass
    of Python's [Exception]; the others are. *)
Inductive exn : Type :=
| KeyboardInterrupt
| ScanFailure
| ActionFailure.

Definition is_Exception (e : exn) : bool :=
  match e with KeyboardInterrupt => false | _ => true end.

(** A small exception monad: a Python computation returns or raises. *)
Inductive Exc (A : Type) : Type :=
| Ret (a : A)
| Raise (e : exn).
Arguments Ret {A} a.
Arguments Raise {A} e.

Definition bind {A B} (m : Exc A) (k : A -> Exc B) : Exc B :=
  match m with Ret a => k a | Raise e => Raise e end.

Notation "x <- m ;; k" := (bind m (fun x => k))
  (at level 61, m at next level, right associativity).

(** [try: m  except Exception: handler] *)
Definition try_except_Exception {A} (m : Exc A) (handler : Exc A) : Exc A :=
  match m with
  | Ret a => Ret a
  | Raise e => if is_Exception e then handler else Raise e
  end.

(** src/tools/settings.py *)
Module Settings.
(** [SCAN_INTERVAL = 2.5], kept in tenths of a second. *)
Definition SCAN_INTERVAL_tenths : nat := 25.
Definition MIN_OUT_OF_RANGE_TIME : nat := 6.
Definition ENABLE_LOCK : bool := true.
Definition ENABLE_WAKE : bool := true.
End Settings.

(** ** bluelock_perfect.py *)
Module Perfect.

Inductive Action : Type := Wake | Lock.

Definition Action_eqb (a b : Action) : bool :=
  match a, b with Wake, Wake | Lock, Lock => true | _, _ => false end.

(** The loop variables of [monitor_device] together with the attribute
    [self.device_in_range] (the phase: [true] is in range). *)
Record state : Type := mkState {
  device_in_range : bool;
  consecutive_misses : nat;
  consecutive_hits : nat;
  last_rssi : option Z
}.

(** [__init__] sets [device_in_range = False]; [monitor_device] starts
    both counters at 0 and [last_rssi = None]; no probe is made before
    the loop. *)
Definition initial : state := mkState false 0 0 None.

(** [max(2, MIN_OUT_OF_RANGE_TIME // SCAN_INTERVAL)], i.e.
    [max(2, 6 // 2.5)]. *)
Definition required_misses : nat :=
  Nat.max 2 (Settings.MIN_OUT_OF_RANGE_TIME * 10 / Settings.SCAN_INTERVAL_tenths).

(** The scanning methods of [enhanced_scan], before its handler: a found
    device yields its RSSI ([-65] when only the extended scan found it),
    a failing scanner raises. *)
Definition scan_methods (p : ProbeResult) : Exc (option Z) :=
  match p with
  | Present (Some r) => Ret (Some r)
  | Present None => Ret (Some (-65)%Z)
  | Absent => Ret None
  | ProbeError => Raise ScanFailure
  end.

(** [enhanced_scan]: [except Exception: pass], then [return None]. *)
Definition enhanced_scan (p : ProbeResult) : Exc (option Z) :=
  try_except_Exception (scan_methods p) (Ret None).

(** The value [enhanced_scan] returns for a probe (it never raises an
    [Exception], see [enhanced_scan_total]). *)
Definition scan_value (p : ProbeResult) : option Z :=
  match enhanced_scan p with Ret v => v | Raise _ => None end.

(** The decision part of one iteration of [monitor_device] for the
    value [rssi] of the scan; the list holds the [execute_action]
    calls of the iteration. *)
Definition step (s : state) (rssi : option Z) : state * list Action :=
  match rssi with
  | Some r =>
      let hits := S (consecutive_hits s) in
      if negb (device_in_range s) && (2 <=? hits) then
        (mkState true 0 hits (Some r), [Wake])
      else (mkState (device_in_range s) 0 hits (Some r), [])
  | None =>
      let misses := S (consecutive_misses s) in
      if device_in_range s && (required_misses <=? misses) then
        (mkState false misses 0 (last_rssi s), [Lock])
      else (mkState (device_in_range s) misses 0 (last_rssi s), [])
  end.

Definition tick (s : state) (p : ProbeResult) : state * list Action :=
  step s (scan_value p).

(** Phase and [execute_action] calls after each tick. *)
Fixpoint trace (s : state) (ps : list ProbeResult) : list (bool * list Action) :=
  match ps with
  | [] => []
  | p :: ps' =>
      let (s', acts) := tick s p in
      (device_in_range s', acts) :: trace s' ps'
  end.

Fixpoint run (s : state) (ps : list ProbeResult) : state :=
  match ps with
  | [] => s
  | p :: ps' => run (fst (tick s p)) ps'
  end.

Definition actions_of (s : state) (ps : list ProbeResult) : list Action :=
  List.concat (map snd (trace s ps)).

(** [execute_action]: the command is run only when its setting enables
    it; [action_raises] says whether running it raises.  The whole body
    is under [try: ... except Exception: pass]. *)
Definition execute_action (a : Action) (action_raises : bool) : Exc unit :=
  let enabled := match a with
                 | Lock => Settings.ENABLE_LOCK
                 | Wake => Settings.ENABLE_WAKE
                 end in
  try_except_Exception
    (if enabled then (if action_raises then Raise ActionFailure else Ret tt)
     else Ret tt)
    (Ret tt).

Fixpoint execute_all (acts : list Action) (action_raises : bool) : Exc unit :=
  match acts with
  | [] => Ret tt
  | a :: acts' => _ <- execute_action a action_raises ;; execute_all acts' action_raises
  end.

(** What happens during one iteration: a probe whose outcome is [p] and
    whose action command (if one runs) raises or not, or a Ctrl+C. *)
Inductive tick_input : Type :=
| Tick (p : ProbeResult) (action_raises : bool)
| CtrlC.

(** One iteration of [while True:] in [monitor_device], with its
    exceptions. *)
Definition iteration (s : state) (i : tick_input) : Exc (state * list Action) :=
  match i with
  | CtrlC => Raise KeyboardInterrupt
  | Tick p ar =>
      rssi <- enhanced_scan p ;;
      let (s', acts) := step s rssi in
      _ <- execute_all acts ar ;;
      Ret (s', acts)
  end.

Inductive outcome : Type :=
| Running (s : state)     (** still in the loop after the given inputs *)
| Stopped (s : state)     (** left through [except KeyboardInterrupt] *)
| Crashed (e : exn).      (** an exception escaped [monitor_device] *)

(** [try: while True: ... except KeyboardInterrupt: ...] over a finite
    prefix of the inputs. *)
Fixpoint monitor_device (s : state) (ins : list tick_input) : outcome :=
  match ins with
  | [] => Running s
  | i :: ins' =>
      match iteration s i with
      | Ret (s', _) => monitor_device s' ins'
      | Raise KeyboardInterrupt => Stopped s
      | Raise e => Crashed e
      end
  end.

End Perfect.

(** ** app.py *)
Module WebApp.

(** The global dictionary [monitor_state]. *)
Record monitor_state : Type := mkMS {
  is_monitoring : bool;
  device_name : option string;
  device_id : option string;
  is_connected : bool;
  last_check : option string;
  screen_off : bool
}.

(** The module globals [monitor_state] and [stop_monitoring]. *)
Record globals : Type := mkG {
  ms : monitor_state;
  stop_monitoring : bool
}.

Definition init_monitor_state : monitor_state :=
  mkMS false None None false None false.

Definition init_globals : globals := mkG init_monitor_state false.

(** Python truthiness of a value that is [None] or a string. *)
Definition truthy (o : option string) : bool :=
  match o with
  | Some EmptyString => false
  | Some _ => true
  | None => false
  end.

(** [is_device_connected]: [run_powershell] yields the device status, or
    an empty string when it raises; the device is connected iff the status is [OK]. *)
Definition is_device_connected (p : ProbeResult) : bool :=
  match p with
  | Present _ => true
  | Absent | ProbeError => false
  end.

Inductive Effect : Type := TurnOffScreen.

Definition OUT_OF_RANGE_COUNT : nat := 2.

(** [time.sleep(3)] *)
Definition POLL_SECONDS : nat := 3.

Definition set_probe (m : monitor_state) (conn : bool) (now : string) : monitor_state :=
  mkMS (is_monitoring m) (device_name m) (device_id m) conn (Some now) (screen_off m).

Definition set_screen_off (m : monitor_state) (b : bool) : monitor_state :=
  mkMS (is_monitoring m) (device_name m) (device_id m) (is_connected m) (last_check m) b.

(** The body of [while ...:] in [monitor_loop] before [time.sleep(3)]:
    [miss_count] is the local counter, [p] the probe outcome and [now]
    the [time.strftime] of the tick. *)
Definition tick (m : monitor_state) (miss_count : nat) (p : ProbeResult) (now : string)
  : monitor_state * nat * list Effect :=
  if truthy (device_id m) then
    let connected := is_device_connected p in
    let m1 := set_probe m connected now in
    if connected then (set_screen_off m1 false, 0, [])
    else
      let miss := S miss_count in
      if (OUT_OF_RANGE_COUNT <=? miss) && negb (screen_off m1) then
        (set_screen_off m1 true, miss, [TurnOffScreen])
      else (m1, miss, [])
  else (m, miss_count, []).

(** Screen state ([screen_off]) and [turn_off_screen] calls after each
    tick, from the state [m] and counter [miss]. *)
Fixpoint trace (m : monitor_state) (miss : nat) (ins : list (ProbeResult * string))
  : list (bool * list Effect) :=
  match ins with
  | [] => []
  | (p, now) :: ins' =>
      let '(m', miss', eff) := tick m miss p now in
      (screen_off m', eff) :: trace m' miss' ins'
  end.

Fixpoint run (m : monitor_state) (miss : nat) (ins : list (ProbeResult * string))
  : monitor_state * nat :=
  match ins with
  | [] => (m, miss)
  | (p, now) :: ins' =>
      let '(m', miss', _) := tick m miss p now in run m' miss' ins'
  end.

Definition effects_of (m : monitor_state) (miss : nat) (ins : list (ProbeResult * string))
  : list Effect :=
  List.concat (map snd (trace m miss ins)).

(** The condition of [while not stop_monitoring and monitor_state["is_monitoring"]]. *)
Definition loop_cond (g : globals) : bool :=
  negb (stop_monitoring g) && is_monitoring (ms g).

(** After the loop: [monitor_state["is_monitoring"] = False]. *)
Definition loop_exit (g : globals) : globals :=
  let m := ms g in
  mkG (mkMS false (device_name m) (device_id m) (is_connected m) (last_check m) (screen_off m))
      (stop_monitoring g).

(** The JSON body of a [/api/start] request. *)
Record request : Type := mkReq {
  req_device_name : option string;
  req_device_id : option string
}.

Inductive response : Type :=
| Error400 (msg : string)
| Ok200 (msg : string).

Definition py_str (o : option string) : string :=
  match o with Some s => s | None => "None" end.

(** [api_start]: [seed] is the outcome of its own call to
    [is_device_connected]; the boolean result tells whether a monitor
    thread is started.  The join of a previous thread is a wait and
    leaves the state alone. *)
Definition api_start (r : request) (seed : ProbeResult) (g : globals)
  : response * globals * bool :=
  if negb (truthy (req_device_id r)) then (Error400 "No device selected", g, false)
  else
    let m := ms g in
    let m' := mkMS true (req_device_name r) (req_device_id r)
                   (is_device_connected seed) (last_check m) false in
    (Ok200 ("Monitoring " ++ py_str (req_device_name r)), mkG m' false, true).

(** [api_stop] *)
Definition api_stop (g : globals) : response * globals :=
  let m := ms g in
  (Ok200 "Monitoring stopped",
   mkG (mkMS false None None (is_connected m) (last_check m) (screen_off m)) true).

(** Control flow of the monitor thread over time, in whole seconds: at
    the head of the loop, sleeping with some seconds left, or exited.
    The tick itself is taken as instantaneous. *)
Inductive pc : Type :=
| Head
| Sleeping (remaining : nat)
| Exited.

Section Timing.
(** The length of the inter-tick sleep ([POLL_SECONDS] in the code). *)
Variable poll : nat.

(** Instantaneous moves: a finished sleep returns to the head, where
    the loop condition is tested; a tick is followed by a new sleep. *)
Definition settle (cond : bool) (c : pc) : pc :=
  match c with
  | Head | Sleeping 0 => if cond then Sleeping poll else Exited
  | Sleeping (S n) => Sleeping (S n)
  | Exited => Exited
  end.

(** One second of [time.sleep]. *)
Definition second (cond : bool) (c : pc) : pc :=
  match c with
  | Sleeping (S n) => settle cond (Sleeping n)
  | c => settle cond c
  end.

Fixpoint elapse (cond : bool) (k : nat) (c : pc) : pc :=
  match k with
  | 0 => c
  | S k' => elapse cond k' (second cond c)
  end.
End Timing.

End WebApp.

(** ** sleep_on_disconnect.py *)
Module Sod.

Definition DISCONNECT_GRACE_CHECKS : nat := 2.
Definition FULL_SYSTEM_SLEEP : bool := false.

Inductive Effect : Type := TurnOffDisplay | SleepSystem.

Record state : Type := mkState {
  consecutive_misses : nat;
  has_slept : bool
}.

Definition initial : state := mkState 0 false.

(** [is_device_connected]: [False] on a non-zero exit code, otherwise
    whether the reported status is [OK]. *)
Definition is_device_connected (p : ProbeResult) : bool :=
  match p with
  | Present _ => true
  | Absent | ProbeError => false
  end.

(** One iteration of [while True:] in [main], before [time.sleep];
    [no_sleep] is the [--no-sleep] flag. *)
Definition step (no_sleep : bool) (s : state) (p : ProbeResult) : state * list Effect :=
  if is_device_connected p then (mkState 0 false, [])
  else
    let misses := S (consecutive_misses s) in
    if (DISCONNECT_GRACE_CHECKS <=? misses) && negb (has_slept s) then
      (mkState misses true,
       if no_sleep then []
       else if FULL_SYSTEM_SLEEP then [SleepSystem] else [TurnOffDisplay])
    else (mkState misses (has_slept s), []).

Fixpoint trace (no_sleep : bool) (s : state) (ps : list ProbeResult)
  : list (bool * list Effect) :=
  match ps with
  | [] => []
  | p :: ps' =>
      let (s', eff) := step no_sleep s p in
      (has_slept s', eff) :: trace no_sleep s' ps'
  end.

Fixpoint run (no_sleep : bool) (s : state) (ps : list ProbeResult) : state :=
  match ps with
  | [] => s
  | p :: ps' => run no_sleep (fst (step no_sleep s p)) ps'
  end.

End Sod.

(** * The rest of the three files *)

(** Python's [str] methods on ASCII text, as the code uses them. *)
Module PyStr.
Import Ascii.

Definition code (c : ascii) : nat := nat_of_ascii c.

(** [str.lower] / [str.upper] on ASCII letters. *)
Definition lower_char (c : ascii) : ascii :=
  if (65 <=? code c) && (code c <=? 90) then ascii_of_nat (code c + 32) else c.
Definition upper_char (c : ascii) : ascii :=
  if (97 <=? code c) && (code c <=? 122) then ascii_of_nat (code c - 32) else c.

Fixpoint lower (s : string) : string :=
  match s with
  | EmptyString => EmptyString
  | String c s' => String (lower_char c) (lower s')
  end.

Fixpoint upper (s : string) : string :=
  match s with
  | EmptyString => EmptyString
  | String c s' => String (upper_char c) (upper s')
  end.

(** [str.isspace] on ASCII: space, \t \n \x0b \x0c \r and \x1c .. \x1f. *)
Definition is_space (c : ascii) : bool :=
  (code c =? 32) || ((9 <=? code c) && (code c <=? 13)) ||
  ((28 <=? code c) && (code c <=? 31)).

Fixpoint lstrip (s : string) : string :=
  match s with
  | String c s' => if is_space c then lstrip s' else s
  | EmptyString => EmptyString
  end.

Fixpoint rev_str (s : string) (acc : string) : string :=
  match s with
  | EmptyString => acc
  | String c s' => rev_str s' (String c acc)
  end.

(** [str.strip()] *)
Definition strip (s : string) : string :=
  rev_str (lstrip (rev_str (lstrip s) EmptyString)) EmptyString.

(** [needle in haystack] *)
Fixpoint contains (needle hay : string) : bool :=
  String.prefix needle hay ||
  match hay with
  | EmptyString => false
  | String _ hay' => contains needle hay'
  end.

Definition is_empty (s : string) : bool :=
  match s with EmptyString => true | _ => false end.

Definition digit_val (c : ascii) : option Z :=
  if (48 <=? code c) && (code c <=? 57) then Some (Z.of_nat (code c - 48)) else None.

(** Digits with single underscores between them, as [int()] accepts. *)
Fixpoint digits (s : string) (acc : Z) (after_digit : bool) : option Z :=
  match s with
  | EmptyString => if after_digit then Some acc else None
  | String c s' =>
      if Ascii.eqb c "_"%char then
        (if after_digit then digits s' acc false else None)
      else match digit_val c with
           | Some d => digits s' (acc * 10 + d)%Z true
           | None => None
           end
  end.

(** [int(s)] on an ASCII string: [None] is the [ValueError]. *)
Definition py_int (s : string) : option Z :=
  match strip s with
  | String c r =>
      if Ascii.eqb c "+"%char then digits r 0 false
      else if Ascii.eqb c "-"%char then option_map Z.opp (digits r 0 false)
      else digits (String c r) 0 false
  | EmptyString => None
  end.

End PyStr.

(** Device catalogue and selection of bluelock_perfect.py. *)
Module PerfectDevices.
Import PyStr.

(** [any(word in name_lower for word in words)] *)
Definition any_in (words : list string) (name_lower : string) : bool :=
  existsb (fun w => contains w name_lower) words.

(** [_get_priority] *)
Definition get_priority (name : string) : nat :=
  let nl := lower name in
  if any_in ["buds"; "airpods"; "headphone"; "earphone"]%string nl then 10
  else if any_in ["audio"; "sound"; "speaker"]%string nl then 8
  else if any_in ["watch"; "band"]%string nl then 7
  else if any_in ["mouse"; "keyboard"]%string nl then 5
  else if any_in ["phone"; "mobile"]%string nl then 3
  else 1.

(** The display labels of [_get_device_type], in order: Audio, Watch,
    Mouse, Phone, Speaker and the fallback Device. *)
Inductive DeviceType : Type := Audio | Watch | Mouse | Phone | Speaker | OtherDevice.

(** [_get_device_type] *)
Definition get_device_type (name : string) : DeviceType :=
  let nl := lower name in
  if any_in ["buds"; "airpods"; "headphone"; "earphone"]%string nl then Audio
  else if any_in ["watch"; "band"]%string nl then Watch
  else if any_in ["mouse"]%string nl then Mouse
  else if any_in ["phone"; "mobile"]%string nl then Phone
  else if any_in ["speaker"]%string nl then Speaker
  else OtherDevice.

(** The dictionaries built by [_load_known_devices]. *)
Record device : Type := mkDev {
  dev_name : string;
  dev_address : string;
  dev_type : DeviceType;
  dev_priority : nat;
  dev_source : string
}.

Definition make_device (source name address : string) : device :=
  mkDev name address (get_device_type name) (get_priority name) source.

(** What reading one config file yields: it is missing, reading or using
    it raises (bad JSON, missing [name]/[address]), it has no
    [target_device], or it names a target device. *)
Inductive config_file : Type :=
| CfgMissing
| CfgUnreadable
| CfgNoTarget
| CfgTarget (name address : string).

(** The loop over [config_files]: the first file with a target device is
    used, then [break]. *)
Fixpoint from_configs (files : list config_file) : list device :=
  match files with
  | [] => []
  | CfgTarget n a :: _ => [make_device "Previous Config" n a]
  | _ :: fs => from_configs fs
  end.

Definition known_list : list (string * string) :=
  [("OPPO Enco Buds", "F0:BE:25:B9:F8:2C");
   ("OPPO Enco Buds2", "84:0F:2A:10:66:05");
   ("soundcore Q20i", "B0:38:E2:68:7D:77");
   ("NIRVANA 751ANC", "9C:43:1E:01:A1:A0");
   ("HD 350BT", "80:C3:BA:0E:98:51");
   ("Boult Audio Airbass", "60:0C:77:2D:99:EC");
   ("Airdopes Joy", "75:45:C9:C4:F6:B0");
   ("OnePlus BulletsWireless Z2 ANC", "08:12:87:47:00:DB");
   ("Mivi Roam 2", "E8:C0:8F:A8:CE:38");
   ("THUNDER", "70:D8:23:26:0D:7B");
   ("varun's Galaxy M31", "04:BD:BF:0C:A4:E7");
   ("Redmi Note 11 SE", "94:D3:31:21:61:39")]%string.

(** [for device in known_devices: if not any(d['address'] == ...): append] *)
Definition add_known (devs : list device) (known : list (string * string)) : list device :=
  fold_left (fun acc na =>
               if existsb (fun d => String.eqb (dev_address d) (snd na)) acc then acc
               else acc ++ [make_device "Known Device" (fst na) (snd na)])
            known devs.

(** [list.sort(key=priority, reverse=True)]: stable, so an element goes
    after the elements of higher priority and before those of equal or
    lower priority that came after it. *)
Fixpoint insert_desc (x : device) (l : list device) : list device :=
  match l with
  | [] => [x]
  | y :: l' => if dev_priority x <? dev_priority y then y :: insert_desc x l' else x :: l
  end.

Fixpoint sort_desc (l : list device) : list device :=
  match l with
  | [] => []
  | x :: l' => insert_desc x (sort_desc l')
  end.

(** [_load_known_devices], for the contents of
    [enhanced_bluelock_config.json] and [bluelock_config.json]. *)
Definition load_known_devices (files : list config_file) : list device :=
  sort_desc (add_known (from_configs files) known_list).

(** One answer to the prompt of [show_device_selection], or Ctrl+C. *)
Inductive input_event : Type :=
| Line (s : string)
| Interrupt.

Inductive selection : Type :=
| Selected (d : device)
| NoSelection          (** [return None] *)
| AwaitingInput.       (** the answers given so far were all rejected *)

(** The [while True:] loop of [show_device_selection]. *)
Fixpoint selection_loop (devs : list device) (first : device) (ins : list input_event)
  : selection :=
  match ins with
  | [] => AwaitingInput
  | Interrupt :: _ => NoSelection
  | Line l :: ins' =>
      let choice := lower (strip l) in
      if String.eqb choice "auto" then Selected first
      else match py_int choice with
           | None => selection_loop devs first ins'
           | Some k =>
               let idx := (k - 1)%Z in
               if (0 <=? idx)%Z && (idx <? Z.of_nat (List.length devs))%Z
               then Selected (nth (Z.to_nat idx) devs first)
               else selection_loop devs first ins'
           end
  end.

(** [show_device_selection] *)
Definition show_device_selection (devs : list device) (ins : list input_event) : selection :=
  match devs with
  | [] => NoSelection
  | first :: _ => selection_loop devs first ins
  end.



(** The order [sort(..., reverse=True)] produces: priorities do not
    increase along the list. *)
Definition prio_ge (a b : device) : Prop := dev_priority b <= dev_priority a.

End PerfectDevices.

(** JSON values as [json.loads] returns them (numbers kept as integers). *)
Module Json.
Import PyStr.

#[warnings="-register-all"]
Inductive json : Type :=
| JNull
| JBool (b : bool)
| JNum (z : Z)
| JStr (s : string)
| JArr (l : list json)
| JObj (fields : list (string * json)).

(** Python truthiness. *)
Definition truthy (j : json) : bool :=
  match j with
  | JNull => false
  | JBool b => b
  | JNum z => negb (z =? 0)%Z
  | JStr s => negb (is_empty s)
  | JArr l => negb (match l with [] => true | _ => false end)
  | JObj l => negb (match l with [] => true | _ => false end)
  end.

(** [dict.get(k)]: with repeated keys [json.loads] keeps the last one. *)
Definition get (fields : list (string * json)) (k : string) : option json :=
  option_map snd (find (fun kv => String.eqb (fst kv) k) (rev fields)).

(** [(d.get(k) or '').strip()]; [None] when it raises ([d] is not a dict,
    or the value is truthy and not a string). *)
Definition field_str (d : json) (k : string) : option string :=
  match d with
  | JObj f =>
      match get f k with
      | None => Some EmptyString
      | Some v =>
          if truthy v then match v with JStr s => Some (strip s) | _ => None end
          else Some EmptyString
      end
  | _ => None
  end.

(** [if isinstance(data, dict): data = [data]], then [for d in data]:
    [None] when iterating raises (a number, a boolean, [null], or a
    non-empty string, whose characters have no [.get]). *)
Definition as_items (data : json) : option (list json) :=
  match data with
  | JObj _ => Some [data]
  | JArr l => Some l
  | JStr s => if is_empty s then Some [] else None
  | _ => None
  end.

End Json.

(** [get_all_bluetooth_devices] of app.py. *)
Module WebAppDevices.
Import PyStr Json.

Record audio_device : Type := mkAudio {
  a_name : string;
  a_instance_id : string;
  a_connected : bool
}.

(** The filter of built-in devices on the lowered name. *)
Definition skipped (name_lower : string) : bool :=
  contains "realtek" name_lower || contains "internal" name_lower ||
  (contains "speakers" name_lower && negb (contains "bluetooth" name_lower)) ||
  contains "microphone array" name_lower.

(** The loop body over the items; [None] when an item raises. *)
Fixpoint collect (items : list json) : option (list audio_device) :=
  match items with
  | [] => Some []
  | d :: items' =>
      match field_str d "FriendlyName", field_str d "InstanceId", field_str d "Status" with
      | Some name, Some iid, Some status =>
          let rest := collect items' in
          if is_empty name || is_empty iid then rest
          else if skipped (lower name) then rest
          else option_map (cons (mkAudio name iid (String.eqb (upper status) "OK"))) rest
      | _, _, _ => None
      end
  end.

(** [get_all_bluetooth_devices]: [output] is what [run_powershell]
    returned and [parsed] the result of [json.loads(output)] ([None] when
    it raises).  Every exception is caught by the bare [except:]. *)
Definition get_all_bluetooth_devices (output : string) (parsed : option json)
  : list audio_device :=
  if is_empty output then []
  else match parsed with
       | None => []
       | Some data =>
           match as_items data with
           | None => []
           | Some items => match collect items with Some l => l | None => [] end
           end
       end.

End WebAppDevices.

(** Configuration, device choice and arguments of sleep_on_disconnect.py. *)
Module SodConfig.
Import PyStr Json.

(** A device dictionary [{"name": ..., "instance_id": ...}]. *)
Record cdevice : Type := mkCDev {
  c_name : json;
  c_instance_id : json
}.

(** [list_connected_bt_devices] entries. *)
Record bt_device : Type := mkBt {
  b_name : string;
  b_instance_id : string
}.

Definition to_cdevice (d : bt_device) : cdevice :=
  mkCDev (JStr (b_name d)) (JStr (b_instance_id d)).

(** [load_config]: [file] is the JSON value in sleep_config.json, [None]
    when the file is missing or does not parse. *)
Definition load_config (file : option json) : option cdevice :=
  match file with
  | Some (JObj f) =>
      match get f "instance_id" with
      | Some iid =>
          if truthy iid then
            Some (mkCDev (match get f "name" with
                          | Some n => n
                          | None => JStr "Bluetooth Device"
                          end) iid)
          else None
      | None => None
      end
  | _ => None
  end.

(** [save_config]: the file then holds the dictionary written (a JSON
    round trip gives it back); when opening the file fails the exception
    is swallowed and the file is left as it was. *)
Definition save_config (d : cdevice) (write_fails : bool) (file : option json) : option json :=
  if write_fails then file
  else Some (JObj [("name", c_name d); ("instance_id", c_instance_id d)]%string).

(** The loop of [list_connected_bt_devices] over the items. *)
Fixpoint normalize (items : list json) : option (list bt_device) :=
  match items with
  | [] => Some []
  | d :: items' =>
      match field_str d "FriendlyName", field_str d "InstanceId" with
      | Some name, Some iid =>
          let rest := normalize items' in
          if is_empty iid then rest
          else option_map (cons (mkBt (if is_empty name then "Bluetooth Device" else name) iid))
                          rest
      | _, _ => None
      end
  end.

(** [list_connected_bt_devices]: [parsed] is [json.loads(cp.stdout)]
    ([None] for a [JSONDecodeError]); the result [None] means an exception
    other than [JSONDecodeError] escapes. *)
Definition list_connected_bt_devices (returncode : Z) (stdout : string) (parsed : option json)
  : option (list bt_device) :=
  if negb (returncode =? 0)%Z || is_empty (strip stdout) then Some []
  else match parsed with
       | None => Some []
       | Some data =>
           match as_items data with
           | None => None
           | Some items => normalize items
           end
       end.

Definition preferred_words : list string :=
  ["audio"; "head"; "ear"; "buds"; "speaker"]%string.

Definition is_preferred (d : bt_device) : bool :=
  existsb (fun k => contains k (lower (b_name d))) preferred_words.

(** [pick_device]: [override] is [override_instance_id], [file] the
    contents of the config file and [devices] what
    [list_connected_bt_devices] returned.  Returns the device and the file
    afterwards. *)
Definition pick_device (override : option string) (file : option json) (write_fails : bool)
    (devices : list bt_device) : option cdevice * option json :=
  let from_config_or_scan :=
    match load_config file with
    | Some cfg => (Some cfg, file)
    | None =>
        match devices with
        | [] => (None, file)
        | d0 :: _ =>
            let selected := match filter is_preferred devices with
                            | p :: _ => p
                            | [] => d0
                            end in
            (Some (to_cdevice selected), save_config (to_cdevice selected) write_fails file)
        end
    end in
  match override with
  | Some o =>
      if negb (is_empty o) then
        let d := mkCDev (JStr "Pinned Bluetooth Device") (JStr o) in
        (Some d, save_config d write_fails file)
      else from_config_or_scan
  | None => from_config_or_scan
  end.

(** [args.index(x)] *)
Fixpoint index_of (x : string) (args : list string) : option nat :=
  match args with
  | [] => None
  | a :: args' => if String.eqb a x then Some 0 else option_map S (index_of x args')
  end.

(** The flag handling at the top of [main]: [max_checks], [no_sleep] and
    [override_id]. *)
Definition parse_args (args : list string) : option Z * bool * option string :=
  let max0 := if existsb (String.eqb "--once") args then Some 1%Z else None in
  let no_sleep := existsb (String.eqb "--no-sleep") args in
  let max_checks :=
    match index_of "--max-checks" args with
    | Some i =>
        match nth_error args (S i) with
        | Some v => match py_int v with Some n => Some n | None => max0 end
        | None => max0
        end
    | None => max0
    end in
  let override_id :=
    match index_of "--device-id" args with
    | Some j => nth_error args (S j)
    | None => None
    end in
  (max_checks, no_sleep, override_id).

(** The [while True:] loop of [main] with its [max_checks] exit, over a
    finite list of probe outcomes: final state, effects, number of
    iterations and whether it left through [break]. *)
Fixpoint main_loop (no_sleep : bool) (max_checks : option Z) (s : Sod.state)
    (checks_done : Z) (ps : list ProbeResult)
  : Sod.state * list Sod.Effect * nat * bool :=
  match ps with
  | [] => (s, [], 0, false)
  | p :: ps' =>
      let (s', e) := Sod.step no_sleep s p in
      match max_checks with
      | Some m =>
          let done' := (checks_done + 1)%Z in
          if (m <=? done')%Z then (s', e, 1, true)
          else let '(s'', e', n, b) := main_loop no_sleep max_checks s' done' ps' in
               (s'', e ++ e', S n, b)
      | None =>
          let '(s'', e', n, b) := main_loop no_sleep max_checks s' checks_done ps' in
          (s'', e ++ e', S n, b)
      end
  end.

(** [main] after [pick_device] returned a device: the flags of [args],
    then the loop from [consecutive_misses = 0], [has_slept = False] and
    [checks_done = 0]. *)
Definition main_run (args : list string) (ps : list ProbeResult)
  : Sod.state * list Sod.Effect * nat * bool :=
  let '(max_checks, no_sleep, _) := parse_args args in
  main_loop no_sleep max_checks Sod.initial 0 ps.

End SodConfig.

(** * Properties *)

(** Replacing [Absent] by [ProbeError] at some positions. *)
Definition absent_to_error (a b : ProbeResult) : Prop :=
  a = b \/ (a = Absent /\ b = ProbeError).

(** No two adjacent equal elements. *)
Fixpoint no_adjacent_repeat {A} (l : list A) : Prop :=
  match l with
  | a :: ((b :: _) as t) => a <> b /\ no_adjacent_repeat t
  | _ => True
  end.

Module PerfectSpec.
Import Perfect.

(** While in range, the miss counter is below the threshold. *)
Definition debounce_inv (s : state) : Prop :=
  device_in_range s = true -> consecutive_misses s < required_misses.

Definition next_action (s : state) : Action :=
  if device_in_range s then Lock else Wake.

Definition other (a : Action) : Action :=
  match a with Lock => Wake | Wake => Lock end.

(** [l] is [a], [other a], [a], ... cut at some length. *)
Fixpoint alternating_from (a : Action) (l : list Action) : Prop :=
  match l with
  | [] => True
  | b :: t => b = a /\ alternating_from (other a) t
  end.

End PerfectSpec.

(** Both monitor loops of app.py and sleep_on_disconnect.py take the probe
    and the timestamp of a tick as one input. *)
Module WebAppSpec.
Import WebApp.

Definition step (st : monitor_state * nat) (i : ProbeResult * string)
  : (monitor_state * nat) * list Effect :=
  let r := tick (fst st) (snd st) (fst i) (snd i) in
  ((fst (fst r), snd (fst r)), snd r).

Definition run' (st : monitor_state * nat) (ins : list (ProbeResult * string))
  : monitor_state * nat :=
  run (fst st) (snd st) ins.

(** The state after [api_start] for a device whose start-up probe saw
    it absent. *)
Definition started_ms : monitor_state :=
  ms (snd (fst (api_start (mkReq (Some "buds"%string) (Some "dev"%string))
                          Absent init_globals))).

(** While the screen is on, the miss counter is below the threshold. *)
Definition guard_inv (st : monitor_state * nat) : Prop :=
  screen_off (fst st) = false -> snd st < OUT_OF_RANGE_COUNT.
End WebAppSpec.

Module PerfectFacts.
Import Perfect PerfectSpec.

Lemma required_misses_2 : required_misses = 2.
Proof. reflexivity. Qed.

Lemma enhanced_scan_total : forall p, enhanced_scan p = Ret (scan_value p).
Proof. intros [[r|]| |]; reflexivity. Qed.

Lemma execute_all_total : forall acts ar, execute_all acts ar = Ret tt.
Proof.
  induction acts as [|a acts IH]; intros ar; [reflexivity|].
  simpl. destruct a, ar; simpl; apply IH.
Qed.

Lemma iteration_tick : forall s p ar,
  iteration s (Tick p ar) = Ret (tick s p).
Proof.
  intros s p ar. unfold iteration, tick. rewrite enhanced_scan_total. simpl.
  destruct (step s (scan_value p)) as [s' acts]. simpl.
  rewrite execute_all_total. reflexivity.
Qed.

Lemma actions_of_cons : forall s p l,
  actions_of s (p :: l) = snd (tick s p) ++ actions_of (fst (tick s p)) l.
Proof.
  intros s p l. unfold actions_of. simpl.
  destruct (tick s p) as [s' acts]. reflexivity.
Qed.

Lemma perfect_trace_cons : forall s p l,
  trace s (p :: l) =
  (device_in_range (fst (tick s p)), snd (tick s p)) :: trace (fst (tick s p)) l.
Proof. intros s p l. simpl. destruct (tick s p). reflexivity. Qed.

Lemma run_cons : forall s p l, run s (p :: l) = run (fst (tick s p)) l.
Proof. reflexivity. Qed.


Lemma step_inv : forall s r, debounce_inv s -> debounce_inv (fst (step s r)).
Proof.
  unfold debounce_inv. intros s [r|] H; unfold step; cbv zeta;
    rewrite required_misses_2 in *.
  - destruct (device_in_range s), (consecutive_hits s) as [|[|h]];
      simpl; intros _; lia.
  - destruct (device_in_range s); [|simpl; discriminate].
    specialize (H eq_refl).
    destruct (consecutive_misses s) as [|[|m]]; simpl; intros Hx;
      try discriminate; lia.
Qed.

Lemma run_inv : forall l s, debounce_inv s -> debounce_inv (run s l).
Proof.
  induction l as [|p l IH]; intros s H; [exact H|].
  rewrite run_cons. apply IH. apply step_inv. exact H.
Qed.

Lemma initial_inv : debounce_inv initial.
Proof. discriminate. Qed.

(** From a state in range satisfying the invariant, a tick leaves the
    range exactly when its miss count reaches [required_misses]. *)
Lemma perfect_flip_iff_threshold : forall s r,
  debounce_inv s -> device_in_range s = true ->
  (device_in_range (fst (step s r)) = false <->
   consecutive_misses (fst (step s r)) = required_misses).
Proof.
  unfold debounce_inv. intros s [r|] Hinv Hin; specialize (Hinv Hin);
    unfold step; cbv zeta; rewrite required_misses_2 in *; rewrite Hin.
  - simpl. split; discriminate.
  - destruct (consecutive_misses s) as [|[|m]]; simpl;
      [split; discriminate | split; reflexivity | lia].
Qed.

Lemma alternating_no_repeat : forall l a,
  alternating_from a l -> no_adjacent_repeat l.
Proof.
  induction l as [|b t IH]; intros a H; simpl; [exact I|].
  destruct H as [-> Ht]. destruct t as [|c t']; [exact I|].
  split.
  - destruct Ht as [-> _]. destruct a; discriminate.
  - apply (IH (other a)). exact Ht.
Qed.

Lemma tick_actions : forall s p,
  (snd (tick s p) = [] /\ device_in_range (fst (tick s p)) = device_in_range s) \/
  (snd (tick s p) = [next_action s] /\
   device_in_range (fst (tick s p)) = negb (device_in_range s)).
Proof.
  intros s p. unfold tick, step, next_action.
  destruct (scan_value p) as [r|].
  - destruct (device_in_range s), (2 <=? S (consecutive_hits s)); simpl; auto.
  - destruct (device_in_range s), (required_misses <=? S (consecutive_misses s)); simpl; auto.
Qed.

Lemma actions_alternate : forall l s,
  alternating_from (next_action s) (actions_of s l).
Proof.
  induction l as [|p l IH]; intros s; [exact I|].
  rewrite actions_of_cons.
  destruct (tick_actions s p) as [[-> Hs] | [-> Hs]].
  - simpl. specialize (IH (fst (tick s p))). unfold next_action in *.
    rewrite Hs in IH. exact IH.
  - simpl. split; [reflexivity|].
    specialize (IH (fst (tick s p))). unfold next_action in *.
    rewrite Hs in IH. destruct (device_in_range s); exact IH.
Qed.

Lemma absent_to_error_scan : forall a b,
  absent_to_error a b -> scan_value a = scan_value b.
Proof. intros a b [-> | [-> ->]]; reflexivity. Qed.

Lemma perfect_trace_absent_to_error : forall l l' s,
  Forall2 absent_to_error l l' -> trace s l = trace s l'.
Proof.
  intros l l' s H. revert s. induction H as [|a b l l' Hab _ IH]; intros s; [reflexivity|].
  rewrite !perfect_trace_cons. unfold tick. rewrite (absent_to_error_scan a b Hab).
  f_equal. apply IH.
Qed.

End PerfectFacts.

Module WebAppFacts.
Import WebApp WebAppSpec.

Lemma run'_cons : forall st i l, run' st (i :: l) = run' (fst (step st i)) l.
Proof.
  intros [m k] [p now] l. unfold run', step. simpl.
  destruct (tick m k p now) as [[m' k'] e]. reflexivity.
Qed.

Lemma webapp_trace_cons : forall m k p now l,
  trace m k ((p, now) :: l) =
  (screen_off (fst (fst (tick m k p now))), snd (tick m k p now))
    :: trace (fst (fst (tick m k p now))) (snd (fst (tick m k p now))) l.
Proof.
  intros m k p now l. simpl. destruct (tick m k p now) as [[m' k'] e]. reflexivity.
Qed.

(** [tick] looks at the probe only through [is_device_connected]. *)
Lemma tick_probe : forall m k p q now,
  is_device_connected p = is_device_connected q -> tick m k p now = tick m k q now.
Proof. intros m k p q now H. unfold tick. rewrite H. reflexivity. Qed.

Lemma tick_fires_sets_guard : forall m k p now,
  snd (tick m k p now) = [TurnOffScreen] -> screen_off (fst (fst (tick m k p now))) = true.
Proof.
  intros m k p now. unfold tick. destruct (truthy (device_id m)); [|discriminate].
  cbv zeta. destruct (is_device_connected p); [discriminate|].
  destruct (_ && _); [reflexivity|discriminate].
Qed.

Lemma tick_guarded_silent : forall m k p now,
  screen_off m = true -> snd (tick m k p now) = [].
Proof.
  intros m k p now H. unfold tick. destruct (truthy (device_id m)); [|reflexivity].
  cbv zeta. destruct (is_device_connected p); [reflexivity|].
  cbn [set_probe screen_off]. rewrite H, andb_false_r. reflexivity.
Qed.

Lemma tick_guard_kept : forall m k p now,
  screen_off m = true -> is_device_connected p = false ->
  screen_off (fst (fst (tick m k p now))) = true.
Proof.
  intros m k p now H Hc. unfold tick. destruct (truthy (device_id m)); [|exact H].
  cbv zeta. rewrite Hc. cbn [set_probe screen_off]. rewrite H, andb_false_r. exact H.
Qed.

Lemma webapp_run_guard_kept : forall l st,
  screen_off (fst st) = true ->
  forallb (fun i => negb (is_device_connected (fst i))) l = true ->
  screen_off (fst (run' st l)) = true.
Proof.
  induction l as [|[p now] l IH]; intros [m k] H Hl; [exact H|].
  simpl in Hl. apply andb_true_iff in Hl as [Hp Hl].
  rewrite run'_cons. apply IH; [|exact Hl].
  unfold step; simpl.
  pose proof (tick_guard_kept m k p now H) as G.
  destruct (tick m k p now) as [[m' k'] e]. apply G.
  destruct (is_device_connected p); [discriminate|reflexivity].
Qed.

(** Once [turn_off_screen] has fired, it fires again only after a tick
    that saw the device connected. *)
Lemma screen_refire_needs_connected : forall st i1 l i2,
  snd (step st i1) = [TurnOffScreen] ->
  snd (step (run' (fst (step st i1)) l) i2) = [TurnOffScreen] ->
  exists i, In i l /\ is_device_connected (fst i) = true.
Proof.
  intros [m k] [p1 n1] l [p2 n2] H1 H2.
  destruct (forallb (fun i => negb (is_device_connected (fst i))) l) eqn:F.
  - exfalso.
    assert (G : screen_off (fst (fst (step (m, k) (p1, n1)))) = true).
    { unfold step in *; simpl in *.
      pose proof (tick_fires_sets_guard m k p1 n1) as T.
      destruct (tick m k p1 n1) as [[m' k'] e]. apply T. exact H1. }
    pose proof (webapp_run_guard_kept l _ G F) as R.
    destruct (run' (fst (step (m, k) (p1, n1))) l) as [m2 k2] eqn:E.
    unfold step in H2. simpl in H2.
    pose proof (tick_guarded_silent m2 k2 p2 n2 R) as S2.
    destruct (tick m2 k2 p2 n2) as [[m3 k3] e3]. simpl in *. congruence.
  - apply Bool.not_true_iff_false in F. rewrite forallb_forall in F.
    destruct (existsb (fun i => is_device_connected (fst i)) l) eqn:X.
    + apply existsb_exists in X. exact X.
    + exfalso. apply F. intros i Hi.
      destruct (is_device_connected (fst i)) eqn:C; [|reflexivity].
      assert (existsb (fun i => is_device_connected (fst i)) l = true) as Y.
      { apply existsb_exists. exists i. auto. }
      congruence.
Qed.

Lemma step_guard_inv : forall st i, guard_inv st -> guard_inv (fst (step st i)).
Proof.
  unfold guard_inv, step, tick, OUT_OF_RANGE_COUNT. intros [m k] [p now] H.
  simpl in *. destruct (truthy (device_id m)); [|exact H].
  destruct (is_device_connected p); simpl;
    destruct (screen_off m) eqn:E, k as [|[|k]]; simpl;
    intros; try congruence; lia.
Qed.

Lemma run_guard_inv : forall l st, guard_inv st -> guard_inv (run' st l).
Proof.
  induction l as [|i l IH]; intros st H; [exact H|].
  rewrite run'_cons. apply IH, step_guard_inv, H.
Qed.

(** From a state with the screen on satisfying the invariant, a tick turns
    the screen off exactly when its miss count reaches the threshold. *)
Lemma screen_flip_iff_threshold : forall st i,
  guard_inv st -> screen_off (fst st) = false ->
  (screen_off (fst (fst (step st i))) = true <->
   snd (fst (step st i)) = OUT_OF_RANGE_COUNT).
Proof.
  unfold guard_inv, step, tick, OUT_OF_RANGE_COUNT. intros [m k] [p now] H Hs.
  simpl in *. specialize (H Hs). rewrite Hs.
  destruct (truthy (device_id m)), (is_device_connected p), k as [|[|k]]; simpl;
    rewrite ?Hs; split; intros; try discriminate; try reflexivity; lia.
Qed.

Lemma webapp_trace_absent_to_error : forall l l' m k ts,
  Forall2 absent_to_error l l' -> trace m k (combine l ts) = trace m k (combine l' ts).
Proof.
  intros l l' m k ts H. revert m k ts.
  induction H as [|a b l l' Hab _ IH]; intros m k ts; [reflexivity|].
  destruct ts as [|t ts]; [reflexivity|]. simpl combine.
  rewrite !webapp_trace_cons.
  rewrite (tick_probe m k a b t) by (destruct Hab as [-> | [-> ->]]; reflexivity).
  f_equal. apply IH.
Qed.

(** [elapse] with the loop condition false, from a sleep with [S n]
    seconds left. *)
Lemma elapse_exited : forall poll k, elapse poll false k Exited = Exited.
Proof. intros poll k. induction k; [reflexivity|exact IHk]. Qed.

Lemma elapse_stopped : forall poll k n,
  elapse poll false k (Sleeping (S n)) =
  if n <? k then Exited else Sleeping (S n - k).
Proof.
  intros poll k. induction k as [|k IH]; intros n.
  - now simpl.
  - simpl. destruct n as [|n].
    + simpl. apply elapse_exited.
    + rewrite IH. destruct (n <? k) eqn:L1, (S n <? S k) eqn:L2;
        apply Nat.ltb_lt in L1 || apply Nat.ltb_ge in L1;
        apply Nat.ltb_lt in L2 || apply Nat.ltb_ge in L2;
        try reflexivity; try lia.
Qed.

End WebAppFacts.

Module SodFacts.
Import Sod.

Lemma fires_sets_guard : forall ns s p,
  snd (step ns s p) <> [] -> has_slept (fst (step ns s p)) = true.
Proof.
  intros ns s p. unfold step. destruct (is_device_connected p); [simpl; congruence|].
  cbv zeta. destruct (_ && _); simpl; [reflexivity|congruence].
Qed.

Lemma guarded_silent : forall ns s p, has_slept s = true -> snd (step ns s p) = [].
Proof.
  intros ns s p H. unfold step. destruct (is_device_connected p); [reflexivity|].
  cbv zeta. rewrite H, andb_false_r. reflexivity.
Qed.

Lemma guard_kept : forall ns s p,
  has_slept s = true -> is_device_connected p = false ->
  has_slept (fst (step ns s p)) = true.
Proof.
  intros ns s p H Hc. unfold step. rewrite Hc. cbv zeta.
  rewrite H, andb_false_r. reflexivity.
Qed.

Lemma sod_run_guard_kept : forall ns l s,
  has_slept s = true ->
  forallb (fun p => negb (is_device_connected p)) l = true ->
  has_slept (run ns s l) = true.
Proof.
  intros ns. induction l as [|p l IH]; intros s H Hl; [exact H|].
  simpl in Hl. apply andb_true_iff in Hl as [Hp Hl].
  simpl. apply IH; [|exact Hl]. apply guard_kept; [exact H|].
  destruct (is_device_connected p); [discriminate|reflexivity].
Qed.

Lemma sod_refire_needs_connected : forall ns s p1 l p2,
  snd (step ns s p1) <> [] ->
  snd (step ns (run ns (fst (step ns s p1)) l) p2) <> [] ->
  exists p, In p l /\ is_device_connected p = true.
Proof.
  intros ns s p1 l p2 H1 H2.
  destruct (existsb is_device_connected l) eqn:X.
  - apply existsb_exists in X. exact X.
  - exfalso. apply H2. apply guarded_silent. apply sod_run_guard_kept.
    + apply fires_sets_guard. exact H1.
    + apply forallb_forall. intros p Hp.
      destruct (is_device_connected p) eqn:C; [|reflexivity].
      assert (existsb is_device_connected l = true) as Y
        by (apply existsb_exists; exists p; auto).
      congruence.
Qed.

Lemma sod_trace_absent_to_error : forall ns l l' s,
  Forall2 absent_to_error l l' -> trace ns s l = trace ns s l'.
Proof.
  intros ns l l' s H. revert s.
  induction H as [|a b l l' Hab _ IH]; intros s; [reflexivity|].
  simpl. replace (step ns s b) with (step ns s a)
    by (destruct Hab as [-> | [-> ->]]; reflexivity).
  destruct (step ns s a) as [s' e]. f_equal. apply IH.
Qed.

End SodFacts.

(** * Claims *)
Module Claims.
Import WebAppSpec.

(** C1 (counterexample): with miss threshold 2, the probes
    [Present; Absent; Absent; Present] do not give the phases
    [InRange; InRange; OutOfRange; OutOfRange]: bluelock_perfect starts
    out of range and stays there with no action, and app.py turns the
    screen back on at the fourth tick. *)
Lemma C1_example_fails :
  map fst (Perfect.trace Perfect.initial [Present None; Absent; Absent; Present None])
    <> [true; true; false; false] /\
  Perfect.actions_of Perfect.initial [Present None; Absent; Absent; Present None] = [] /\
  WebApp.trace started_ms 0
    [(Present None, "t1"%string); (Absent, "t2"%string); (Absent, "t3"%string);
     (Present None, "t4"%string)]
    = [(false, []); (false, []); (true, [WebApp.TurnOffScreen]); (false, [])].
Proof. split; [|split]; vm_compute; [congruence|reflexivity|reflexivity]. Qed.

(** C1 (amended): in both loops, while the phase is in range the miss
    count is below the threshold, and a tick takes the phase out of range
    exactly when its miss count reaches the threshold.  On the example,
    bluelock_perfect stays out of range without any action and app.py
    turns the screen off once, at the third tick, and on again at the
    fourth. *)
Theorem C1_debounce_flip :
  (forall l p,
     Perfect.device_in_range (Perfect.run Perfect.initial l) = true ->
     Perfect.consecutive_misses (Perfect.run Perfect.initial l) < Perfect.required_misses /\
     (Perfect.device_in_range (fst (Perfect.tick (Perfect.run Perfect.initial l) p)) = false <->
      Perfect.consecutive_misses (fst (Perfect.tick (Perfect.run Perfect.initial l) p))
        = Perfect.required_misses)) /\
  (forall m l i,
     WebApp.screen_off m = false ->
     WebApp.screen_off (fst (run' (m, 0) l)) = false ->
     snd (run' (m, 0) l) < WebApp.OUT_OF_RANGE_COUNT /\
     (WebApp.screen_off (fst (fst (step (run' (m, 0) l) i))) = true <->
      snd (fst (step (run' (m, 0) l) i)) = WebApp.OUT_OF_RANGE_COUNT)) /\
  map fst (Perfect.trace Perfect.initial [Present None; Absent; Absent; Present None])
    = [false; false; false; false] /\
  Perfect.actions_of Perfect.initial [Present None; Absent; Absent; Present None] = [] /\
  WebApp.trace started_ms 0
    [(Present None, "t1"%string); (Absent, "t2"%string); (Absent, "t3"%string);
     (Present None, "t4"%string)]
    = [(false, []); (false, []); (true, [WebApp.TurnOffScreen]); (false, [])].
Proof.
  split; [|split; [|split; [|split]]].
  - intros l p Hin.
    pose proof (PerfectFacts.run_inv l _ PerfectFacts.initial_inv) as Hinv.
    split; [exact (Hinv Hin)|].
    apply PerfectFacts.perfect_flip_iff_threshold; assumption.
  - intros m l i H0 Hs.
    assert (Hinv : guard_inv (run' (m, 0) l)).
    { apply WebAppFacts.run_guard_inv. intros _. simpl. unfold WebApp.OUT_OF_RANGE_COUNT. lia. }
    split; [exact (Hinv Hs)|].
    apply WebAppFacts.screen_flip_iff_threshold; assumption.
  - reflexivity.
  - reflexivity.
  - vm_compute. reflexivity.
Qed.

Lemma C1_debounce_flip_witness :
  Perfect.device_in_range (Perfect.run Perfect.initial [Present None; Present None]) = true /\
  (Perfect.device_in_range
     (fst (Perfect.tick (Perfect.run Perfect.initial [Present None; Present None; Absent]) Absent))
     = false <->
   Perfect.consecutive_misses
     (fst (Perfect.tick (Perfect.run Perfect.initial [Present None; Present None; Absent]) Absent))
     = Perfect.required_misses) /\
  (WebApp.screen_off (fst (fst (step (run' (started_ms, 0) [(Absent, "t1"%string)])
                                     (Absent, "t2"%string)))) = true <->
   snd (fst (step (run' (started_ms, 0) [(Absent, "t1"%string)]) (Absent, "t2"%string)))
     = WebApp.OUT_OF_RANGE_COUNT).
Proof.
  destruct C1_debounce_flip as [H1 [H2 _]].
  split; [reflexivity|]. split.
  - apply (H1 [Present None; Present None; Absent] Absent). reflexivity.
  - apply (H2 started_ms [(Absent, "t1"%string)] (Absent, "t2"%string));
      vm_compute; reflexivity.
Defined.

(** C2 (counterexample): app.py's start-up probe seeing the device
    absent leaves the screen state on (in range), and bluelock_perfect,
    starting out of range, fires the wake action for a device present
    from the start. *)
Lemma C2_no_seeded_phase :
  WebApp.screen_off started_ms = false /\
  Perfect.actions_of Perfect.initial [Present None; Present None] = [Perfect.Wake].
Proof. split; reflexivity. Qed.

(** C2 (amended): app.py's [api_start] records its probe only in
    [is_connected] and always starts with the screen on; it fires no
    action.  bluelock_perfect makes no start-up probe, starts out of
    range with no action at the first tick, can fire the wake action
    before any lock action, and fires it once a present device has been
    seen twice in a row. *)
Theorem C2_start_baseline :
  (forall r seed g resp g',
     WebApp.api_start r seed g = (resp, g', true) ->
     WebApp.screen_off (WebApp.ms g') = false /\
     WebApp.is_connected (WebApp.ms g') = WebApp.is_device_connected seed) /\
  Perfect.device_in_range Perfect.initial = false /\
  (forall p, snd (Perfect.tick Perfect.initial p) = []) /\
  (forall l, PerfectSpec.alternating_from Perfect.Wake (Perfect.actions_of Perfect.initial l)) /\
  (forall s1 s2,
     Perfect.actions_of Perfect.initial [Present s1; Present s2] = [Perfect.Wake]).
Proof.
  split; [|split; [reflexivity|split; [|split]]].
  - intros r seed g resp g' H. unfold WebApp.api_start in H.
    destruct (negb (WebApp.truthy (WebApp.req_device_id r))); [discriminate|].
    injection H as _ <-. split; reflexivity.
  - intros [[r|]| |]; reflexivity.
  - intros l. exact (PerfectFacts.actions_alternate l Perfect.initial).
  - intros [s1|] [s2|]; reflexivity.
Qed.

Lemma C2_start_baseline_witness :
  WebApp.screen_off (WebApp.ms (snd (fst (WebApp.api_start
     (WebApp.mkReq (Some "buds"%string) (Some "dev"%string)) Absent WebApp.init_globals))))
    = false.
Proof.
  destruct C2_start_baseline as [H _].
  apply (proj1 (H (WebApp.mkReq (Some "buds"%string) (Some "dev"%string)) Absent
                 WebApp.init_globals _ _ eq_refl)).
Defined.

(** C3 (counterexample): app.py fires [turn_off_screen] twice in a row,
    with no opposite action in between (it has none). *)
Lemma C3_repeated_turn_off :
  WebApp.effects_of started_ms 0
    [(Absent, "t1"%string); (Absent, "t2"%string); (Present None, "t3"%string);
     (Absent, "t4"%string); (Absent, "t5"%string)]
    = [WebApp.TurnOffScreen; WebApp.TurnOffScreen] /\
  ~ no_adjacent_repeat [WebApp.TurnOffScreen; WebApp.TurnOffScreen].
Proof.
  split; [vm_compute; reflexivity|].
  simpl. intros [H _]. apply H. reflexivity.
Qed.

(** C3 (amended): the [execute_action] calls of bluelock_perfect never
    repeat the same action twice in a row; app.py and
    sleep_on_disconnect.py have only the screen-off action, and two of
    its invocations are separated by a tick that saw the device
    connected. *)
Theorem C3_alternation :
  (forall s l, no_adjacent_repeat (Perfect.actions_of s l)) /\
  (forall st i1 l i2,
     snd (step st i1) = [WebApp.TurnOffScreen] ->
     snd (step (run' (fst (step st i1)) l) i2) = [WebApp.TurnOffScreen] ->
     exists i, In i l /\ WebApp.is_device_connected (fst i) = true) /\
  (forall ns s p1 l p2,
     snd (Sod.step ns s p1) <> [] ->
     snd (Sod.step ns (Sod.run ns (fst (Sod.step ns s p1)) l) p2) <> [] ->
     exists p, In p l /\ Sod.is_device_connected p = true).
Proof.
  split; [|split].
  - intros s l. apply (PerfectFacts.alternating_no_repeat _ (PerfectSpec.next_action s)).
    apply PerfectFacts.actions_alternate.
  - exact WebAppFacts.screen_refire_needs_connected.
  - exact SodFacts.sod_refire_needs_connected.
Qed.

Lemma C3_alternation_witness :
  exists i, In i [(Present None, "t3"%string); (Absent, "t4"%string)] /\
            WebApp.is_device_connected (fst i) = true.
Proof.
  destruct C3_alternation as [_ [H _]].
  apply (H (started_ms, 1) (Absent, "t2"%string)
           [(Present None, "t3"%string); (Absent, "t4"%string)] (Absent, "t5"%string));
    vm_compute; reflexivity.
Defined.

(** C4 (counterexample): before the first tick both counters of
    [monitor_device] are zero, so it is not the case that exactly one of
    them is nonzero. *)
Lemma C4_both_zero_at_start :
  ~ ((Perfect.consecutive_misses Perfect.initial <> 0 /\
      Perfect.consecutive_hits Perfect.initial = 0) \/
     (Perfect.consecutive_misses Perfect.initial = 0 /\
      Perfect.consecutive_hits Perfect.initial <> 0)).
Proof. simpl. intros [[H _] | [_ H]]; apply H; reflexivity. Qed.

(** C4 (amended): both counters start at zero; a tick whose scan found
    the device zeroes the misses and increments the hits, any other tick
    zeroes the hits and increments the misses, so after at least one
    tick exactly one counter is nonzero. *)
Theorem C4_counters_after_tick :
  Perfect.consecutive_misses Perfect.initial = 0 /\
  Perfect.consecutive_hits Perfect.initial = 0 /\
  (forall s p,
     match Perfect.scan_value p with
     | Some _ =>
         Perfect.consecutive_misses (fst (Perfect.tick s p)) = 0 /\
         Perfect.consecutive_hits (fst (Perfect.tick s p)) = S (Perfect.consecutive_hits s)
     | None =>
         Perfect.consecutive_hits (fst (Perfect.tick s p)) = 0 /\
         Perfect.consecutive_misses (fst (Perfect.tick s p)) = S (Perfect.consecutive_misses s)
     end) /\
  (forall s l, l <> [] ->
     (Perfect.consecutive_misses (Perfect.run s l) <> 0 /\
      Perfect.consecutive_hits (Perfect.run s l) = 0) \/
     (Perfect.consecutive_misses (Perfect.run s l) = 0 /\
      Perfect.consecutive_hits (Perfect.run s l) <> 0)).
Proof.
  assert (Hstep : forall s p,
     match Perfect.scan_value p with
     | Some _ =>
         Perfect.consecutive_misses (fst (Perfect.tick s p)) = 0 /\
         Perfect.consecutive_hits (fst (Perfect.tick s p)) = S (Perfect.consecutive_hits s)
     | None =>
         Perfect.consecutive_hits (fst (Perfect.tick s p)) = 0 /\
         Perfect.consecutive_misses (fst (Perfect.tick s p)) = S (Perfect.consecutive_misses s)
     end).
  { intros s p. unfold Perfect.tick, Perfect.step.
    destruct (Perfect.scan_value p); cbv zeta.
    - destruct (_ && _); split; reflexivity.
    - destruct (_ && _); split; reflexivity. }
  split; [reflexivity|split; [reflexivity|split; [exact Hstep|]]].
  intros s l Hl. destruct l as [|p l] using rev_ind; [congruence|].
  clear IHl Hl.
  assert (R : forall l s, Perfect.run s (l ++ [p]) = fst (Perfect.tick (Perfect.run s l) p)).
  { induction l0 as [|q l0 IH]; intros s0; [reflexivity|]. simpl. apply IH. }
  rewrite R. specialize (Hstep (Perfect.run s l) p).
  destruct (Perfect.scan_value p); destruct Hstep as [H1 H2]; rewrite H1, H2; auto.
Qed.

Lemma C4_counters_after_tick_witness :
  (Perfect.consecutive_misses (Perfect.run Perfect.initial [Absent]) <> 0 /\
   Perfect.consecutive_hits (Perfect.run Perfect.initial [Absent]) = 0) \/
  (Perfect.consecutive_misses (Perfect.run Perfect.initial [Absent]) = 0 /\
   Perfect.consecutive_hits (Perfect.run Perfect.initial [Absent]) <> 0).
Proof.
  destruct C4_counters_after_tick as [_ [_ [_ H]]].
  apply (H Perfect.initial [Absent]). discriminate.
Defined.

(** C5: replacing [Absent] by [ProbeError] at any positions of the probe
    outcomes leaves the whole trajectory (phase and actions after each
    tick) of each of the three loops unchanged. *)
Theorem C5_error_equals_absent : forall l l',
  Forall2 absent_to_error l l' ->
  (forall s, Perfect.trace s l = Perfect.trace s l') /\
  (forall m k ts, WebApp.trace m k (combine l ts) = WebApp.trace m k (combine l' ts)) /\
  (forall ns s, Sod.trace ns s l = Sod.trace ns s l').
Proof.
  intros l l' H. split; [|split].
  - intros s. apply PerfectFacts.perfect_trace_absent_to_error. exact H.
  - intros m k ts. apply WebAppFacts.webapp_trace_absent_to_error. exact H.
  - intros ns s. apply SodFacts.sod_trace_absent_to_error. exact H.
Qed.

Lemma C5_error_equals_absent_witness :
  Perfect.trace Perfect.initial [Present None; Present None; Absent; Absent]
  = Perfect.trace Perfect.initial [Present None; Present None; ProbeError; Absent].
Proof.
  assert (HF : Forall2 absent_to_error [Present None; Present None; Absent; Absent]
                                       [Present None; Present None; ProbeError; Absent]).
  { unfold absent_to_error.
    repeat apply Forall2_cons; try apply Forall2_nil;
      first [left; reflexivity | right; split; reflexivity]. }
  exact (proj1 (C5_error_equals_absent _ _ HF) Perfect.initial).
Defined.

(** C6 (counterexample): after [api_stop] issued when the monitor thread
    has just started its [time.sleep(3)], the thread is still sleeping two
    seconds later; with a 60-second sleep it is still sleeping after 59
    seconds. *)
Lemma C6_stop_waits_for_sleep :
  WebApp.elapse WebApp.POLL_SECONDS
    (WebApp.loop_cond (snd (WebApp.api_stop WebApp.init_globals))) 2
    (WebApp.Sleeping WebApp.POLL_SECONDS) = WebApp.Sleeping 1 /\
  WebApp.elapse 60
    (WebApp.loop_cond (snd (WebApp.api_stop WebApp.init_globals))) 59
    (WebApp.Sleeping 60) = WebApp.Sleeping 1.
Proof. split; vm_compute; reflexivity. Qed.

(** C6 (amended): [api_stop] only sets flags that the loop tests at its
    head; the sleep is not interrupted, so a monitor thread with [S n]
    seconds of sleep left has exited after [k] seconds exactly when
    [S n <= k].  Stopped at the start of a sleep, it exits after the
    whole poll interval. *)
Theorem C6_stop_latency_is_remaining_sleep : forall poll g n k,
  WebApp.elapse poll (WebApp.loop_cond (snd (WebApp.api_stop g))) k (WebApp.Sleeping (S n))
    = WebApp.Exited <-> S n <= k.
Proof.
  intros poll g n k. unfold WebApp.loop_cond. simpl.
  rewrite WebAppFacts.elapse_stopped.
  destruct (n <? k) eqn:L.
  - apply Nat.ltb_lt in L. split; [intros _; lia|reflexivity].
  - apply Nat.ltb_ge in L. split; [discriminate|lia].
Qed.

(** C7: in bluelock_perfect, neither a failing scan nor a failing action
    command ends [monitor_device]: no exception escapes it, it leaves the
    loop only through [KeyboardInterrupt] (Ctrl+C), and without one it
    keeps running. *)
Theorem C7_loop_survives_failures : forall s ins,
  match Perfect.monitor_device s ins with
  | Perfect.Crashed _ => False
  | Perfect.Stopped _ => In Perfect.CtrlC ins
  | Perfect.Running _ => ~ In Perfect.CtrlC ins
  end.
Proof.
  intros s ins. revert s. induction ins as [|i ins IH]; intros s.
  - simpl. auto.
  - destruct i as [p ar|].
    + cbn [Perfect.monitor_device]. rewrite PerfectFacts.iteration_tick.
      destruct (Perfect.tick s p) as [s' acts] eqn:E.
      specialize (IH s').
      destruct (Perfect.monitor_device s' ins); simpl; auto.
      intros [H|H]; [discriminate|contradiction].
    + simpl. auto.
Qed.

(** C8: [api_start] starts a monitor thread exactly when the device id of
    the request is truthy ([None] and the empty string are not); when it
    starts none, it answers with an error and changes no state; when it
    starts one, the poll interval (3 s) is positive and the miss threshold
    (2) is at least 1. *)
Theorem C8_start_validates :
  WebApp.truthy None = false /\ WebApp.truthy (Some EmptyString) = false /\
  forall r seed g,
    match WebApp.api_start r seed g with
    | (resp, g', started) =>
        (started = true <-> WebApp.truthy (WebApp.req_device_id r) = true) /\
        (started = false -> g' = g /\ resp = WebApp.Error400 "No device selected") /\
        (started = true -> 0 < WebApp.POLL_SECONDS /\ 1 <= WebApp.OUT_OF_RANGE_COUNT)
    end.
Proof.
  split; [reflexivity|split; [reflexivity|]].
  intros r seed g. unfold WebApp.api_start.
  destruct (WebApp.truthy (WebApp.req_device_id r)); simpl.
  - split; [split; reflexivity|split; [discriminate|]].
    intros _. unfold WebApp.POLL_SECONDS, WebApp.OUT_OF_RANGE_COUNT. lia.
  - split; [split; discriminate|split; [auto|discriminate]].
Qed.

Lemma C8_start_validates_witness :
  WebApp.api_start (WebApp.mkReq (Some "buds"%string) (Some EmptyString)) Absent
    WebApp.init_globals
  = (WebApp.Error400 "No device selected", WebApp.init_globals, false).
Proof.
  destruct C8_start_validates as [_ [_ H]].
  specialize (H (WebApp.mkReq (Some "buds"%string) (Some EmptyString)) Absent
                WebApp.init_globals).
  destruct (WebApp.api_start (WebApp.mkReq (Some "buds"%string) (Some EmptyString)) Absent
              WebApp.init_globals) as [[resp g'] started] eqn:E.
  destruct H as [H1 [H2 _]].
  destruct started.
  - exfalso. assert (X : WebApp.truthy (Some EmptyString) = true) by (apply H1; reflexivity).
    discriminate X.
  - destruct (H2 eq_refl) as [-> ->]. reflexivity.
Defined.

(** C9: within one run of the monitor loop of app.py, and of the loop of
    sleep_on_disconnect.py, between two screen-off invocations there is
    a tick that saw the device connected. *)
Theorem C9_guard_cleared_by_connection :
  (forall st i1 l i2,
     snd (step st i1) = [WebApp.TurnOffScreen] ->
     snd (step (run' (fst (step st i1)) l) i2) = [WebApp.TurnOffScreen] ->
     exists i, In i l /\ WebApp.is_device_connected (fst i) = true) /\
  (forall ns s p1 l p2,
     snd (Sod.step ns s p1) <> [] ->
     snd (Sod.step ns (Sod.run ns (fst (Sod.step ns s p1)) l) p2) <> [] ->
     exists p, In p l /\ Sod.is_device_connected p = true).
Proof.
  split; [exact WebAppFacts.screen_refire_needs_connected | exact SodFacts.sod_refire_needs_connected].
Qed.

Lemma C9_guard_cleared_by_connection_witness :
  exists p, In p [Absent; Present None; Absent] /\ Sod.is_device_connected p = true.
Proof.
  destruct C9_guard_cleared_by_connection as [_ H].
  apply (H false (Sod.mkState 1 false) Absent [Absent; Present None; Absent] Absent);
    vm_compute; discriminate.
Defined.

(** C10: [api_stop] clears [is_monitoring], [device_name] and
    [device_id] and leaves [is_connected], [last_check] and [screen_off]
    as they were; the loop, whose condition is then false, exits changing
    only [is_monitoring]. *)
Theorem C10_stop_frame : forall g,
  WebApp.is_monitoring (WebApp.ms (snd (WebApp.api_stop g))) = false /\
  WebApp.device_name (WebApp.ms (snd (WebApp.api_stop g))) = None /\
  WebApp.device_id (WebApp.ms (snd (WebApp.api_stop g))) = None /\
  WebApp.is_connected (WebApp.ms (snd (WebApp.api_stop g))) = WebApp.is_connected (WebApp.ms g) /\
  WebApp.last_check (WebApp.ms (snd (WebApp.api_stop g))) = WebApp.last_check (WebApp.ms g) /\
  WebApp.screen_off (WebApp.ms (snd (WebApp.api_stop g))) = WebApp.screen_off (WebApp.ms g) /\
  WebApp.loop_cond (snd (WebApp.api_stop g)) = false /\
  WebApp.ms (WebApp.loop_exit (snd (WebApp.api_stop g))) = WebApp.ms (snd (WebApp.api_stop g)).
Proof. intros g. repeat split. Qed.

End Claims.

(** * The device catalogue and selection of bluelock_perfect.py *)
Module DevicesFacts.
Import PyStr PerfectDevices.

Lemma insert_desc_perm : forall x l, Permutation (insert_desc x l) (x :: l).
Proof.
  intros x l; induction l as [|y l IH]; simpl; [auto|].
  destruct (dev_priority x <? dev_priority y); [|auto].
  eapply perm_trans; [apply perm_skip, IH | apply perm_swap].
Qed.

Lemma sort_desc_perm : forall l, Permutation (sort_desc l) l.
Proof.
  induction l as [|x l IH]; simpl; [auto|].
  eapply perm_trans; [apply insert_desc_perm | apply perm_skip, IH].
Qed.

Lemma insert_desc_sorted : forall x l, Sorted prio_ge l -> Sorted prio_ge (insert_desc x l).
Proof.
  intros x l; induction l as [|y l IH]; intros H; simpl.
  - constructor; constructor.
  - destruct (dev_priority x <? dev_priority y) eqn:E.
    + apply Nat.ltb_lt in E. apply Sorted_inv in H as [Hs Hh].
      constructor; [now apply IH|].
      destruct l as [|z l]; simpl.
      * constructor. unfold prio_ge; lia.
      * destruct (dev_priority x <? dev_priority z); constructor; unfold prio_ge;
          [inversion Hh; assumption | lia].
    + apply Nat.ltb_ge in E. constructor; [assumption|]. constructor. unfold prio_ge; lia.
Qed.

Lemma sort_desc_sorted : forall l, Sorted prio_ge (sort_desc l).
Proof.
  induction l as [|x l IH]; simpl; [constructor|]. now apply insert_desc_sorted.
Qed.

Lemma add_known_cons : forall acc na known,
  add_known acc (na :: known) =
  add_known (if existsb (fun d => String.eqb (dev_address d) (snd na)) acc then acc
             else acc ++ [make_device "Known Device" (fst na) (snd na)]) known.
Proof. reflexivity. Qed.

Lemma add_known_ext : forall known acc, exists rest, add_known acc known = acc ++ rest.
Proof.
  induction known as [|na known IH]; intros acc.
  - exists []. now rewrite app_nil_r.
  - rewrite add_known_cons. destruct (existsb _ acc).
    + apply IH.
    + destruct (IH (acc ++ [make_device "Known Device" (fst na) (snd na)])) as [rest E].
      rewrite E, <- app_assoc. eexists; reflexivity.
Qed.

Lemma add_known_nodup : forall known acc,
  NoDup (map dev_address acc) -> NoDup (map dev_address (add_known acc known)).
Proof.
  induction known as [|na known IH]; intros acc H; [exact H|].
  rewrite add_known_cons. destruct (existsb _ acc) eqn:E; apply IH; [exact H|].
  rewrite map_app; simpl.
  apply Permutation_NoDup with (l := snd na :: map dev_address acc);
    [apply Permutation_cons_append|].
  constructor; [|exact H].
  intros Hin. apply in_map_iff in Hin as [d [Hd Hin]].
  assert (existsb (fun d => String.eqb (dev_address d) (snd na)) acc = true) as E'.
  { apply existsb_exists. exists d. split; [exact Hin|]. apply String.eqb_eq; exact Hd. }
  congruence.
Qed.

Lemma add_known_keeps : forall known acc d, In d acc -> In d (add_known acc known).
Proof.
  intros known acc d H. destruct (add_known_ext known acc) as [rest E].
  rewrite E. apply in_or_app; left; exact H.
Qed.

Lemma add_known_addresses : forall known acc a,
  In a (map dev_address (add_known acc known)) <->
  In a (map dev_address acc) \/ In a (map snd known).
Proof.
  induction known as [|na known IH]; intros acc a.
  - simpl; tauto.
  - rewrite add_known_cons. destruct (existsb _ acc) eqn:E; rewrite IH.
    + simpl. split; [tauto|]. intros [H|[H|H]]; [tauto| |tauto].
      left. subst a. apply existsb_exists in E as [d [Hd Hq]].
      apply String.eqb_eq in Hq. rewrite <- Hq. now apply in_map.
    + rewrite map_app. simpl. rewrite in_app_iff. simpl. tauto.
Qed.

Lemma from_configs_shape : forall files,
  from_configs files = [] \/ exists n a, from_configs files = [make_device "Previous Config" n a].
Proof.
  induction files as [|f files IH]; [left; reflexivity|].
  destruct f; simpl; try exact IH. right; eauto.
Qed.

Lemma load_known_addresses : forall files a,
  In a (map dev_address (load_known_devices files)) <->
  In a (map snd known_list) \/ In a (map dev_address (from_configs files)).
Proof.
  intros files a. unfold load_known_devices.
  split; intros H.
  - apply (Permutation_in _ (Permutation_map dev_address (sort_desc_perm _))) in H.
    apply add_known_addresses in H. tauto.
  - apply (Permutation_in _ (Permutation_sym (Permutation_map dev_address (sort_desc_perm _)))).
    apply add_known_addresses. tauto.
Qed.

Lemma get_priority_le_10 : forall name, get_priority name <= 10.
Proof.
  intros name. unfold get_priority. cbv zeta.
  repeat match goal with |- context [if ?b then _ else _] => destruct b end; lia.
Qed.

Lemma add_known_prio_le_10 : forall known acc,
  Forall (fun d => dev_priority d <= 10) acc ->
  Forall (fun d => dev_priority d <= 10) (add_known acc known).
Proof.
  induction known as [|na known IH]; intros acc H; [exact H|].
  rewrite add_known_cons. destruct (existsb _ acc); apply IH; [exact H|].
  apply Forall_app; split; [exact H|]. constructor; [apply get_priority_le_10 | constructor].
Qed.

Lemma Sorted_head_max : forall d l d',
  Sorted prio_ge (d :: l) -> In d' (d :: l) -> dev_priority d' <= dev_priority d.
Proof.
  intros d l d' Hs Hin.
  apply Sorted_StronglySorted in Hs; [|unfold Relations_1.Transitive, prio_ge; intros; lia].
  apply StronglySorted_inv in Hs as [_ Hf].
  destruct Hin as [<-|Hin]; [lia|]. rewrite Forall_forall in Hf. apply Hf, Hin.
Qed.

Lemma load_known_nonempty : forall files, load_known_devices files <> [].
Proof.
  intros files E.
  assert (In "F0:BE:25:B9:F8:2C"%string (map dev_address (load_known_devices files))) as H.
  { apply load_known_addresses. left. simpl; tauto. }
  rewrite E in H. exact H.
Qed.


Lemma speaker_word_is_audio_word : forall nl,
  any_in ["speaker"]%string nl = true -> any_in ["audio"; "sound"; "speaker"]%string nl = true.
Proof.
  unfold any_in; simpl; intros nl H. rewrite orb_false_r in H. rewrite H, !orb_true_r. reflexivity.
Qed.

(** X1. [_load_known_devices] never lists an address twice, whatever the
    config files hold: the known device with the address of the config
    target is skipped. *)
Theorem load_known_devices_nodup : forall files,
  NoDup (map dev_address (load_known_devices files)).
Proof.
  intros files. unfold load_known_devices.
  apply (Permutation_NoDup (Permutation_sym (Permutation_map dev_address (sort_desc_perm _)))).
  apply add_known_nodup.
  destruct (from_configs_shape files) as [E|[n [a E]]]; rewrite E; simpl;
    repeat constructor; simpl; tauto.
Qed.

(** X2. The list [_load_known_devices] returns is ordered by priority,
    highest first, and lists exactly the twelve known addresses together
    with the address of the first config file that names a target
    device. *)
Theorem load_known_devices_sorted_addresses : forall files,
  Sorted prio_ge (load_known_devices files) /\
  (forall a, In a (map dev_address (load_known_devices files)) <->
             In a (map snd known_list) \/ In a (map dev_address (from_configs files))).
Proof.
  intros files. split; [apply sort_desc_sorted | apply load_known_addresses].
Qed.

(** X3. Answering [auto] (in any case, with surrounding blanks) to the
    prompt of [show_device_selection] over the loaded devices selects a
    device of the highest priority among them. *)
Theorem auto_selects_top_priority : forall files l ins,
  lower (strip l) = "auto"%string ->
  exists d, show_device_selection (load_known_devices files) (Line l :: ins) = Selected d /\
            In d (load_known_devices files) /\
            forall d', In d' (load_known_devices files) -> dev_priority d' <= dev_priority d.
Proof.
  intros files l ins H.
  pose proof (sort_desc_sorted (add_known (from_configs files) known_list)) as Hs.
  pose proof (load_known_nonempty files) as Hne. unfold load_known_devices in *.
  destruct (sort_desc _) as [|d rest]; [congruence|].
  exists d. cbn [show_device_selection selection_loop]. rewrite H. simpl.
  split; [reflexivity|]. split; [left; reflexivity|].
  intros d' Hin. exact (Sorted_head_max d rest d' Hs Hin).
Qed.

Lemma auto_selects_top_priority_witness :
  lower (strip " AUTO ") = "auto"%string /\
  exists d, show_device_selection (load_known_devices []) [Line " AUTO "] = Selected d /\
            In d (load_known_devices []) /\
            forall d', In d' (load_known_devices []) -> dev_priority d' <= dev_priority d.
Proof.
  split; [reflexivity|]. apply auto_selects_top_priority. reflexivity.
Defined.

(** X4. A config target device of the top priority 10 is the one [auto]
    selects: the sort is stable and the config device comes first in the
    list before sorting. *)
Theorem config_target_wins_ties : forall files c l ins,
  from_configs files = [c] -> dev_priority c = 10 -> lower (strip l) = "auto"%string ->
  show_device_selection (load_known_devices files) (Line l :: ins) = Selected c.
Proof.
  intros files c l ins Hc Hp H. unfold load_known_devices. rewrite Hc.
  destruct (add_known_ext known_list [c]) as [rest E]. rewrite E. simpl.
  assert (Forall (fun d => dev_priority d <= 10) (sort_desc rest)) as Hr.
  { assert (Forall (fun d => dev_priority d <= 10) ([c] ++ rest)) as Hall.
    { rewrite <- E. apply add_known_prio_le_10. constructor; [lia|constructor]. }
    apply Forall_app in Hall as [_ Hall].
    rewrite Forall_forall in *. intros x Hx. apply Hall.
    exact (Permutation_in _ (sort_desc_perm rest) Hx). }
  assert (exists t, insert_desc c (sort_desc rest) = c :: t) as [t Et].
  { destruct (sort_desc rest) as [|y t]; [eexists; reflexivity|].
    inversion Hr; subst. simpl. rewrite Hp.
    destruct (10 <? dev_priority y) eqn:Ey; [apply Nat.ltb_lt in Ey; lia|].
    eexists; reflexivity. }
  rewrite Et. cbn [show_device_selection selection_loop]. rewrite H. reflexivity.
Qed.

Lemma config_target_wins_ties_witness :
  from_configs [CfgMissing; CfgTarget "Galaxy Buds" "AA:BB"] =
    [make_device "Previous Config" "Galaxy Buds" "AA:BB"] /\
  dev_priority (make_device "Previous Config" "Galaxy Buds" "AA:BB") = 10 /\
  lower (strip "auto") = "auto"%string /\
  show_device_selection (load_known_devices [CfgMissing; CfgTarget "Galaxy Buds" "AA:BB"])
    [Line "auto"] = Selected (make_device "Previous Config" "Galaxy Buds" "AA:BB").
Proof.
  split; [reflexivity|]. split; [reflexivity|]. split; [reflexivity|].
  apply config_target_wins_ties; reflexivity.
Defined.


(** X6. [_get_device_type] labels a device Audio exactly when
    [_get_priority] gives it the top priority 10, and a Speaker always has
    priority 8. *)
Theorem device_type_vs_priority : forall name,
  (get_device_type name = Audio <-> get_priority name = 10) /\
  (get_device_type name = Speaker -> get_priority name = 8).
Proof.
  intros name. unfold get_device_type, get_priority. cbv zeta.
  set (nl := lower name). split.
  - destruct (any_in ["buds"; "airpods"; "headphone"; "earphone"]%string nl);
      [split; intro; reflexivity|].
    repeat match goal with |- context [if ?b then _ else _] => destruct b end;
      split; intro; discriminate.
  - destruct (any_in ["buds"; "airpods"; "headphone"; "earphone"]%string nl); [discriminate|].
    destruct (any_in ["watch"; "band"]%string nl); [discriminate|].
    destruct (any_in ["mouse"]%string nl); [discriminate|].
    destruct (any_in ["phone"; "mobile"]%string nl); [discriminate|].
    destruct (any_in ["speaker"]%string nl) eqn:Es; [|discriminate].
    rewrite (speaker_word_is_audio_word _ Es). reflexivity.
Qed.


End DevicesFacts.

(** * Device listing of app.py *)
Module WebAppDevicesFacts.
Import PyStr Json WebAppDevices.

Lemma collect_entries_ok : forall items l d,
  collect items = Some l -> In d l ->
  is_empty (a_name d) = false /\ is_empty (a_instance_id d) = false /\
  skipped (lower (a_name d)) = false.
Proof.
  induction items as [|x items IH]; intros l d H Hin; simpl in H.
  - inversion H; subst. destruct Hin.
  - destruct (field_str x "FriendlyName") as [name|]; [|discriminate].
    destruct (field_str x "InstanceId") as [iid|]; [|discriminate].
    destruct (field_str x "Status") as [status|]; [|discriminate].
    destruct (is_empty name || is_empty iid) eqn:E1; [eapply IH; eauto|].
    destruct (skipped (lower name)) eqn:E2; [eapply IH; eauto|].
    destruct (collect items) as [l0|] eqn:E3; simpl in H; [|discriminate].
    inversion H; subst. destruct Hin as [<-|Hin]; [|eapply IH; eauto].
    simpl. apply orb_false_iff in E1 as [E1 E1']. tauto.
Qed.

Lemma collect_bad_entry : forall items d,
  In d items ->
  (field_str d "FriendlyName" = None \/ field_str d "InstanceId" = None \/
   field_str d "Status" = None) ->
  collect items = None.
Proof.
  induction items as [|x items IH]; intros d Hin Hbad; [destruct Hin|].
  destruct Hin as [->|Hin]; simpl.
  - destruct (field_str d "FriendlyName"), (field_str d "InstanceId"), (field_str d "Status");
      intuition congruence.
  - destruct (field_str x "FriendlyName"), (field_str x "InstanceId"), (field_str x "Status");
      try reflexivity.
    rewrite (IH d Hin Hbad).
    destruct (_ || _); [reflexivity|]. destruct (skipped _); reflexivity.
Qed.

(** X8. Every device [get_all_bluetooth_devices] returns has a non-empty
    name and instance id, and its lowered name passes the filter of
    built-in devices (no realtek, internal, microphone array, and no
    speakers unless bluetooth). *)
Theorem listed_devices_pass_filter : forall output parsed d,
  In d (get_all_bluetooth_devices output parsed) ->
  is_empty (a_name d) = false /\ is_empty (a_instance_id d) = false /\
  skipped (lower (a_name d)) = false.
Proof.
  intros output parsed d Hin. unfold get_all_bluetooth_devices in Hin.
  destruct (is_empty output); [destruct Hin|].
  destruct parsed as [data|]; [|destruct Hin].
  destruct (as_items data) as [items|]; [|destruct Hin].
  destruct (collect items) as [l|] eqn:E; [|destruct Hin].
  exact (collect_entries_ok items l d E Hin).
Qed.

Lemma listed_devices_pass_filter_witness :
  let parsed := Some (JObj [("FriendlyName", JStr " Bluetooth Speakers ");
                            ("InstanceId", JStr "BT7"); ("Status", JStr "ok")]%string) in
  In (mkAudio "Bluetooth Speakers" "BT7" true) (get_all_bluetooth_devices "{...}" parsed) /\
  is_empty (a_name (mkAudio "Bluetooth Speakers" "BT7" true)) = false /\
  is_empty (a_instance_id (mkAudio "Bluetooth Speakers" "BT7" true)) = false /\
  skipped (lower (a_name (mkAudio "Bluetooth Speakers" "BT7" true))) = false.
Proof.
  cbv zeta. split; [left; reflexivity|].
  apply (listed_devices_pass_filter "{...}"
           (Some (JObj [("FriendlyName", JStr " Bluetooth Speakers ");
                        ("InstanceId", JStr "BT7"); ("Status", JStr "ok")]%string))).
  left; reflexivity.
Defined.

(** X9. One entry of the PowerShell output that raises (not an object, or a
    truthy non-string FriendlyName, InstanceId or Status) makes
    [get_all_bluetooth_devices] return the empty list: the bare [except:]
    drops the devices of every other entry too. *)
Theorem one_bad_entry_empties_list : forall output items d,
  is_empty output = false -> In d items ->
  (field_str d "FriendlyName" = None \/ field_str d "InstanceId" = None \/
   field_str d "Status" = None) ->
  get_all_bluetooth_devices output (Some (JArr items)) = [].
Proof.
  intros output items d Ho Hin Hbad. unfold get_all_bluetooth_devices.
  rewrite Ho. simpl. rewrite (collect_bad_entry items d Hin Hbad). reflexivity.
Qed.

Lemma one_bad_entry_empties_list_witness :
  let good := JObj [("FriendlyName", JStr "Buds Pro"); ("InstanceId", JStr "BT1");
                    ("Status", JStr "OK")]%string in
  let bad := JObj [("FriendlyName", JStr "Buds Air"); ("InstanceId", JStr "BT2");
                   ("Status", JNum 1)]%string in
  is_empty "[...]" = false /\ In bad [good; bad] /\ field_str bad "Status" = None /\
  get_all_bluetooth_devices "[...]" (Some (JArr [good; bad])) = [].
Proof.
  cbv zeta. split; [reflexivity|]. split; [right; left; reflexivity|].
  split; [reflexivity|].
  eapply one_bad_entry_empties_list; [reflexivity | right; left; reflexivity |].
  right; right; reflexivity.
Defined.

End WebAppDevicesFacts.

(** * The monitor loop of app.py without a device *)
Module WebAppIdleFacts.
Import WebApp.

(** X10. While [monitor_state["device_id"]] is falsy, [monitor_loop] makes
    no probe: the ticks leave the monitor state and [miss_count] as they
    are and never call [turn_off_screen]. *)
Theorem monitor_loop_idle_without_device : forall m miss ins,
  truthy (device_id m) = false ->
  run m miss ins = (m, miss) /\ effects_of m miss ins = [].
Proof.
  intros m miss ins H. unfold effects_of.
  induction ins as [|[p now] ins IH]; [split; reflexivity|].
  assert (tick m miss p now = (m, miss, [])) as Ht by (unfold tick; rewrite H; reflexivity).
  simpl. rewrite Ht. simpl. exact IH.
Qed.

Lemma monitor_loop_idle_without_device_witness :
  truthy (device_id (mkMS true (Some "Buds"%string) (Some EmptyString) false None false)) = false /\
  run (mkMS true (Some "Buds"%string) (Some EmptyString) false None false) 0
      [(Absent, "10:00:00"%string); (Absent, "10:00:03"%string)] =
    (mkMS true (Some "Buds"%string) (Some EmptyString) false None false, 0) /\
  effects_of (mkMS true (Some "Buds"%string) (Some EmptyString) false None false) 0
      [(Absent, "10:00:00"%string); (Absent, "10:00:03"%string)] = [].
Proof.
  split; [reflexivity|]. apply monitor_loop_idle_without_device. reflexivity.
Defined.

End WebAppIdleFacts.

(** * Configuration, device choice and flags of sleep_on_disconnect.py *)
Module SodConfigFacts.
Import PyStr Json SodConfig.

Lemma load_after_save : forall d file,
  load_config (save_config d false file) =
  if truthy (c_instance_id d) then Some d else None.
Proof.
  intros [n i] file. unfold save_config, load_config, get. simpl.
  destruct (truthy i); reflexivity.
Qed.

Lemma normalize_entries_ok : forall items l d,
  normalize items = Some l -> In d l ->
  is_empty (b_name d) = false /\ is_empty (b_instance_id d) = false.
Proof.
  induction items as [|x items IH]; intros l d H Hin; simpl in H.
  - inversion H; subst. destruct Hin.
  - destruct (field_str x "FriendlyName") as [name|]; [|discriminate].
    destruct (field_str x "InstanceId") as [iid|]; [|discriminate].
    destruct (is_empty iid) eqn:E1; [eapply IH; eauto|].
    destruct (normalize items) as [l0|] eqn:E3; simpl in H; [|discriminate].
    inversion H; subst. destruct Hin as [<-|Hin]; [|eapply IH; eauto].
    simpl. split; [|exact E1]. destruct (is_empty name) eqn:E; [reflexivity | exact E].
Qed.

Lemma listed_entries_ok : forall rc out parsed l,
  list_connected_bt_devices rc out parsed = Some l ->
  Forall (fun d => is_empty (b_name d) = false /\ is_empty (b_instance_id d) = false) l.
Proof.
  intros rc out parsed l H. apply Forall_forall. intros d Hin.
  unfold list_connected_bt_devices in H.
  destruct (_ || _); [inversion H; subst; destruct Hin|].
  destruct parsed as [data|]; [|inversion H; subst; destruct Hin].
  destruct (as_items data) as [items|]; [|discriminate].
  exact (normalize_entries_ok items l d H Hin).
Qed.

Lemma selected_in : forall f (d0 : bt_device) rest,
  In (match filter f (d0 :: rest) with p :: _ => p | [] => d0 end) (d0 :: rest).
Proof.
  intros f d0 rest. destruct (filter f (d0 :: rest)) as [|p ps] eqn:E; [left; reflexivity|].
  apply (proj1 (filter_In f p (d0 :: rest))). rewrite E. left; reflexivity.
Qed.

Lemma filter_first : forall (f : bt_device -> bool) l p ps,
  filter f l = p :: ps ->
  exists pre post, l = pre ++ p :: post /\ Forall (fun x => f x = false) pre /\ f p = true.
Proof.
  intros f l; induction l as [|x l IH]; intros p ps H; simpl in H; [discriminate|].
  destruct (f x) eqn:E.
  - inversion H; subst. exists [], l. split; [reflexivity|]. split; [constructor | exact E].
  - destruct (IH p ps H) as [pre [post [-> [Hpre Hp]]]].
    exists (x :: pre), post. split; [reflexivity|]. split; [constructor; assumption | exact Hp].
Qed.

Lemma filter_empty : forall (f : bt_device -> bool) l,
  filter f l = [] -> Forall (fun x => f x = false) l.
Proof.
  intros f l; induction l as [|x l IH]; intros H; simpl in H; [constructor|].
  destruct (f x) eqn:E; [discriminate|]. constructor; [exact E | apply IH, H].
Qed.

(** X11. [save_config] followed by [load_config] gives the saved device
    back exactly when its instance id is truthy; a device with a falsy
    instance id is saved but then ignored. *)
Theorem save_config_round_trip : forall d file,
  load_config (save_config d false file) =
  if truthy (c_instance_id d) then Some d else None.
Proof. exact load_after_save. Qed.

(** X12. [list_connected_bt_devices] only returns devices with a
    non-empty name (falling back to [Bluetooth Device]) and a non-empty
    instance id. *)
Theorem listed_bt_devices_named : forall rc out parsed l,
  list_connected_bt_devices rc out parsed = Some l ->
  Forall (fun d => is_empty (b_name d) = false /\ is_empty (b_instance_id d) = false) l.
Proof. exact listed_entries_ok. Qed.

Lemma listed_bt_devices_named_witness :
  let parsed := Some (JArr [JObj [("FriendlyName", JNull); ("InstanceId", JStr " BT9 ")];
                            JObj [("FriendlyName", JStr "Mouse"); ("InstanceId", JStr EmptyString)]]%string) in
  list_connected_bt_devices 0 "[...]" parsed = Some [mkBt "Bluetooth Device" "BT9"]%string /\
  Forall (fun d => is_empty (b_name d) = false /\ is_empty (b_instance_id d) = false)
    [mkBt "Bluetooth Device" "BT9"]%string.
Proof.
  cbv zeta. split; [reflexivity|].
  apply (listed_bt_devices_named 0%Z "[...]"
           (Some (JArr [JObj [("FriendlyName", JNull); ("InstanceId", JStr " BT9 ")];
                        JObj [("FriendlyName", JStr "Mouse"); ("InstanceId", JStr EmptyString)]]%string))).
  reflexivity.
Defined.

(** X13. Once [pick_device] has chosen a device among those
    [list_connected_bt_devices] reports and saved it, the next run without
    [--device-id] picks the same device from the config file, whatever
    devices are connected then. *)
Theorem pick_device_sticky : forall rc out parsed devs ov file d file' devs',
  list_connected_bt_devices rc out parsed = Some devs ->
  pick_device ov file false devs = (Some d, file') ->
  pick_device None file' false devs' = (Some d, file').
Proof.
  intros rc out parsed devs ov file d file' devs' Hl H.
  pose proof (listed_entries_ok rc out parsed devs Hl) as Hdevs.
  unfold pick_device in H |- *. cbv zeta in H |- *.
  destruct ov as [o|]; [destruct (negb (is_empty o)) eqn:Eo|].
  1: { injection H as <- <-. simpl. rewrite Eo. reflexivity. }
  all: destruct (load_config file) as [cfg|] eqn:Ec;
    [injection H as <- <-; rewrite Ec; reflexivity|].
  all: destruct devs as [|d0 rest]; [discriminate|].
  all: pose proof (selected_in is_preferred d0 rest) as Hin;
       rewrite Forall_forall in Hdevs; destruct (Hdevs _ Hin) as [_ Hi];
       revert H Hi Hin;
       generalize (match filter is_preferred (d0 :: rest) with p :: _ => p | [] => d0 end);
       intros sel H Hi _; injection H as <- <-; simpl; rewrite Hi; reflexivity.
Qed.

Lemma pick_device_sticky_witness :
  let out := "{...}"%string in
  let parsed := Some (JObj [("FriendlyName", JStr " WH-1000XM4 Headset ");
                            ("InstanceId", JStr "BTHENUM\1")]%string) in
  list_connected_bt_devices 0 out parsed =
    Some [mkBt "WH-1000XM4 Headset" "BTHENUM\1"]%string /\
  pick_device None None false [mkBt "WH-1000XM4 Headset" "BTHENUM\1"]%string =
    (Some ((mkCDev (JStr "WH-1000XM4 Headset") (JStr "BTHENUM\1"))%string),
     Some (JObj [("name", JStr "WH-1000XM4 Headset"); ("instance_id", JStr "BTHENUM\1")]%string)) /\
  pick_device None (Some (JObj [("name", JStr "WH-1000XM4 Headset");
                                ("instance_id", JStr "BTHENUM\1")]%string)) false [] =
    (Some ((mkCDev (JStr "WH-1000XM4 Headset") (JStr "BTHENUM\1"))%string),
     Some (JObj [("name", JStr "WH-1000XM4 Headset"); ("instance_id", JStr "BTHENUM\1")]%string)).
Proof.
  cbv zeta. split; [reflexivity|]. split; [reflexivity|].
  apply (pick_device_sticky 0%Z "{...}"%string
           (Some (JObj [("FriendlyName", JStr " WH-1000XM4 Headset ");
                        ("InstanceId", JStr "BTHENUM\1")]%string))
           [mkBt "WH-1000XM4 Headset" "BTHENUM\1"]%string None None);
    reflexivity.
Defined.

(** X14. With no usable config file, [pick_device] picks the first
    connected device whose lowered name contains audio, head, ear, buds
    or speaker, and the first connected device only when none does. *)
Theorem pick_device_prefers_audio_names : forall file wf devs d file',
  load_config file = None ->
  pick_device None file wf devs = (Some d, file') ->
  (exists pre b post, devs = pre ++ b :: post /\
     Forall (fun x => is_preferred x = false) pre /\ is_preferred b = true /\
     d = to_cdevice b) \/
  (Forall (fun x => is_preferred x = false) devs /\
   exists b rest, devs = b :: rest /\ d = to_cdevice b).
Proof.
  intros file wf devs d file' Hc H. unfold pick_device in H. cbv zeta in H.
  rewrite Hc in H. destruct devs as [|d0 rest]; [discriminate|].
  destruct (filter is_preferred (d0 :: rest)) as [|p ps] eqn:E; inversion H; subst.
  - right. split; [exact (filter_empty _ _ E)|]. exists d0, rest. split; reflexivity.
  - left. destruct (filter_first _ _ _ _ E) as [pre [post [Hl [Hpre Hp]]]].
    exists pre, p, post. tauto.
Qed.

Lemma pick_device_prefers_audio_names_witness :
  load_config None = None /\
  pick_device None None false [mkBt "Galaxy Watch" "W1"; mkBt "Buds2" "B2"; mkBt "Headset" "H3"]%string =
    (Some (to_cdevice (mkBt "Buds2" "B2")%string),
     Some (JObj [("name", JStr "Buds2"); ("instance_id", JStr "B2")]%string)) /\
  ((exists pre b post,
      [mkBt "Galaxy Watch" "W1"; mkBt "Buds2" "B2"; mkBt "Headset" "H3"]%string = pre ++ b :: post /\
      Forall (fun x => is_preferred x = false) pre /\ is_preferred b = true /\
      to_cdevice (mkBt "Buds2" "B2")%string = to_cdevice b) \/
   (Forall (fun x => is_preferred x = false)
      [mkBt "Galaxy Watch" "W1"; mkBt "Buds2" "B2"; mkBt "Headset" "H3"]%string /\
    exists b rest, [mkBt "Galaxy Watch" "W1"; mkBt "Buds2" "B2"; mkBt "Headset" "H3"]%string = b :: rest /\
      to_cdevice (mkBt "Buds2" "B2")%string = to_cdevice b)).
Proof.
  split; [reflexivity|]. split; [reflexivity|].
  apply (pick_device_prefers_audio_names None false
           [mkBt "Galaxy Watch" "W1"; mkBt "Buds2" "B2"; mkBt "Headset" "H3"]%string _
           (Some (JObj [("name", JStr "Buds2"); ("instance_id", JStr "B2")]%string)));
    reflexivity.
Defined.

Lemma main_loop_bounded : forall no_sleep m ps s c,
  Z.to_nat (Z.max 1 (m - c)) <= List.length ps ->
  let '(_, _, n, b) := main_loop no_sleep (Some m) s c ps in
  n = Z.to_nat (Z.max 1 (m - c)) /\ b = true.
Proof.
  intros no_sleep m ps. induction ps as [|p ps IH]; intros s c H; simpl in *; [lia|].
  destruct (Sod.step no_sleep s p) as [s' e].
  destruct (m <=? c + 1)%Z eqn:E.
  - apply Z.leb_le in E. split; [lia|reflexivity].
  - apply Z.leb_gt in E. specialize (IH s' (c + 1)%Z ltac:(lia)).
    destruct (main_loop no_sleep (Some m) s' (c + 1) ps) as [[[s'' e'] n] b].
    destruct IH as [-> ->]. split; [lia|reflexivity].
Qed.

Lemma main_loop_unbounded : forall no_sleep ps s c,
  let '(_, _, n, b) := main_loop no_sleep None s c ps in n = List.length ps /\ b = false.
Proof.
  intros no_sleep ps. induction ps as [|p ps IH]; intros s c; simpl; [split; reflexivity|].
  destruct (Sod.step no_sleep s p) as [s' e].
  specialize (IH s' c).
  destruct (main_loop no_sleep None s' c ps) as [[[s'' e'] n] b].
  destruct IH as [-> ->]. split; reflexivity.
Qed.

Lemma once_flag : forall args, In "--once"%string args ->
  existsb (String.eqb "--once") args = true.
Proof.
  intros args H. apply existsb_exists. exists "--once"%string. split; [exact H|].
  apply String.eqb_refl.
Qed.

Lemma no_once_flag : forall args, ~ In "--once"%string args ->
  existsb (String.eqb "--once") args = false.
Proof.
  intros args H. destruct (existsb _ args) eqn:E; [|reflexivity].
  apply existsb_exists in E as [x [Hx Hq]]. apply String.eqb_eq in Hq. subst x. contradiction.
Qed.

(** X15. With [--max-checks N] followed by an integer, [main] makes
    exactly [max 1 N] checks and then leaves the loop through [break],
    whether or not [--once] is given: [--max-checks 0] or a negative value
    still makes one check. *)
Theorem main_max_checks_count : forall args i v m ps,
  index_of "--max-checks" args = Some i -> nth_error args (S i) = Some v ->
  py_int v = Some m -> Z.to_nat (Z.max 1 m) <= List.length ps ->
  let '(_, _, n, b) := main_run args ps in n = Z.to_nat (Z.max 1 m) /\ b = true.
Proof.
  intros args i v m ps Hi Hv Hm Hps. unfold main_run, parse_args.
  rewrite Hi, Hv, Hm. cbv zeta. simpl.
  pose proof (main_loop_bounded (existsb (String.eqb "--no-sleep") args) m ps Sod.initial 0%Z)
    as Hml.
  rewrite Z.sub_0_r in Hml. exact (Hml Hps).
Qed.

Lemma main_max_checks_count_witness :
  index_of "--max-checks" ["--once"; "--max-checks"; "0"]%string = Some 1 /\
  nth_error ["--once"; "--max-checks"; "0"]%string 2 = Some "0"%string /\
  py_int "0" = Some 0%Z /\ Z.to_nat (Z.max 1 0) <= List.length [Absent; Absent] /\
  (let '(_, _, n, b) := main_run ["--once"; "--max-checks"; "0"]%string [Absent; Absent] in
   n = Z.to_nat (Z.max 1 0) /\ b = true).
Proof.
  split; [reflexivity|]. split; [reflexivity|]. split; [reflexivity|].
  split; [simpl; lia|].
  apply (main_max_checks_count _ 1 "0"%string); [reflexivity|reflexivity|reflexivity|simpl; lia].
Defined.

(** X16. With [--once] and no [--max-checks], [main] makes exactly one
    check and leaves the loop through [break]. *)
Theorem main_once_one_check : forall args ps,
  In "--once"%string args -> index_of "--max-checks" args = None -> ps <> [] ->
  let '(_, _, n, b) := main_run args ps in n = 1 /\ b = true.
Proof.
  intros args ps Ho Hi Hps. unfold main_run, parse_args.
  rewrite Hi, (once_flag args Ho). cbv zeta. simpl.
  pose proof (main_loop_bounded (existsb (String.eqb "--no-sleep") args) 1 ps Sod.initial 0%Z)
    as Hml.
  simpl in Hml. apply Hml. destruct ps; [congruence | simpl; lia].
Qed.

Lemma main_once_one_check_witness :
  In "--once"%string ["--no-sleep"; "--once"]%string /\
  index_of "--max-checks" ["--no-sleep"; "--once"]%string = None /\
  [Absent; Present None; Absent] <> [] /\
  (let '(_, _, n, b) := main_run ["--no-sleep"; "--once"]%string [Absent; Present None; Absent] in
   n = 1 /\ b = true).
Proof.
  split; [right; left; reflexivity|]. split; [reflexivity|]. split; [discriminate|].
  apply main_once_one_check; [right; left; reflexivity | reflexivity | discriminate].
Defined.

(** X17. When the value after [--max-checks] is missing or not an
    integer, the [ValueError] or [IndexError] is swallowed; without
    [--once], [main] then never leaves the loop through [break] and checks
    at every tick. *)
Theorem main_bad_max_checks_unbounded : forall args i ps,
  index_of "--max-checks" args = Some i ->
  match nth_error args (S i) with Some v => py_int v = None | None => True end ->
  ~ In "--once"%string args ->
  let '(_, _, n, b) := main_run args ps in n = List.length ps /\ b = false.
Proof.
  intros args i ps Hi Hv Ho. unfold main_run, parse_args.
  rewrite Hi, (no_once_flag args Ho).
  destruct (nth_error args (S i)) as [v|]; [rewrite Hv|]; cbv zeta; simpl;
    apply main_loop_unbounded.
Qed.

Lemma main_bad_max_checks_unbounded_witness :
  index_of "--max-checks" ["--max-checks"; "ten"]%string = Some 0 /\
  py_int "ten" = None /\ ~ In "--once"%string ["--max-checks"; "ten"]%string /\
  (let '(_, _, n, b) := main_run ["--max-checks"; "ten"]%string [Absent; Absent; Absent] in
   n = 3 /\ b = false).
Proof.
  split; [reflexivity|]. split; [reflexivity|].
  assert (~ In "--once"%string ["--max-checks"; "ten"]%string) as H
    by (simpl; intuition discriminate).
  split; [exact H|].
  apply (main_bad_max_checks_unbounded _ 0); [reflexivity | reflexivity | exact H].
Defined.

End SodConfigFacts.
